(** * Verification model of [handler.py] (serverless vocal removal)

    Shallow embedding of [ServerlessVocalRemover] and [handler].  The
    Python standard library functions the handler calls ([base64],
    [os.path], [glob], [subprocess.run], [datetime]) are modelled after
    their CPython implementations; the external separation tool (Demucs)
    is an oracle [tool] that the handler is parameterised by. *)

From Stdlib Require Import ZArith List String Ascii Bool Lia.
From Stdlib Require Import Strings.Byte.
Import ListNotations.
Open Scope string_scope.
Open Scope Z_scope.

(* ------------------------------------------------------------------ *)
(** ** Base64 (CPython [binascii]) *)

Module B64.

Definition alphabet : string :=
  "ABCDEFGHIJKLMNOPQRSTUVWXYZabcdefghijklmnopqrstuvwxyz0123456789+/".

(** [table_b2a_base64[n]] for a sextet [n]. *)
Definition table_b2a (n : Z) : ascii :=
  match String.get (Z.to_nat n) alphabet with
  | Some c => c
  | None => "="%char
  end.

(** [table_a2b_base64[c]]: [None] for the entries >= 64 (invalid). *)
Definition table_a2b (c : ascii) : option Z :=
  let n := Z.of_nat (nat_of_ascii c) in
  if (65 <=? n) && (n <=? 90) then Some (n - 65)
  else if (97 <=? n) && (n <=? 122) then Some (n - 71)
  else if (48 <=? n) && (n <=? 57) then Some (n + 4)
  else if n =? 43 then Some 62
  else if n =? 47 then Some 63
  else None.

Definition byte_Z (b : byte) : Z := Z.of_N (Byte.to_N b).

(** An [unsigned char] store: [*bin_data++ = v] keeps the low 8 bits. *)
Definition byte_of_Z (z : Z) : byte :=
  match Byte.of_N (Z.to_N (Z.land z 255)) with
  | Some b => b
  | None => x00
  end.

Definition pad : ascii := "="%char.

(** [binascii.b2a_base64(data, newline=False)]: the three-byte loop and
    the one- and two-byte tails with their padding. *)
Fixpoint b2a_base64 (bs : list byte) : list ascii :=
  match bs with
  | b0 :: b1 :: b2 :: rest =>
      let x := byte_Z b0 in let y := byte_Z b1 in let z := byte_Z b2 in
      table_b2a (Z.land (Z.shiftr x 2) 63)
      :: table_b2a (Z.land (Z.lor (Z.shiftl x 4) (Z.shiftr y 4)) 63)
      :: table_b2a (Z.land (Z.lor (Z.shiftl y 2) (Z.shiftr z 6)) 63)
      :: table_b2a (Z.land z 63)
      :: b2a_base64 rest
  | [b0; b1] =>
      let x := byte_Z b0 in let y := byte_Z b1 in
      [table_b2a (Z.land (Z.shiftr x 2) 63);
       table_b2a (Z.land (Z.lor (Z.shiftl x 4) (Z.shiftr y 4)) 63);
       table_b2a (Z.land (Z.shiftl y 2) 63); pad]
  | [b0] =>
      let x := byte_Z b0 in
      [table_b2a (Z.land (Z.shiftr x 2) 63);
       table_b2a (Z.land (Z.shiftl x 4) 63); pad; pad]
  | [] => []
  end.

(** Errors raised by [a2b_base64] ([binascii.Error]). *)
Inductive a2b_error :=
| IncorrectPadding
| OneMoreThanMultipleOf4 (ndata : Z).

(** Decoder state of the non-strict loop: [quad_pos], [leftchar], [pads],
    and the bytes written so far (reversed).  [padding_started] is only
    read in strict mode, which [b64decode(validate=False)] does not use. *)
Record dstate := DState { quad_pos : Z; leftchar : Z; pads : Z; out : list Z }.

Definition a2b_char (s : dstate) (this_ch : Z) : dstate :=
  let q := quad_pos s in let l := leftchar s in
  if q =? 0 then DState 1 this_ch 0 (out s)
  else if q =? 1 then
    DState 2 (Z.land this_ch 15)
           0 (Z.land (Z.lor (Z.shiftl l 2) (Z.shiftr this_ch 4)) 255 :: out s)
  else if q =? 2 then
    DState 3 (Z.land this_ch 3)
           0 (Z.land (Z.lor (Z.shiftl l 4) (Z.shiftr this_ch 2)) 255 :: out s)
  else
    DState 0 0 0 (Z.land (Z.lor (Z.shiftl l 6) this_ch) 255 :: out s).

(** End of input without a completing pad sequence. *)
Definition a2b_finish (s : dstate) : a2b_error + list Z :=
  if quad_pos s =? 0 then inr (List.rev (out s))
  else if quad_pos s =? 1 then
    inl (OneMoreThanMultipleOf4 (Z.of_nat (List.length (out s)) / 3 * 4 + 1))
  else inl IncorrectPadding.

(** The [for] loop of [binascii_a2b_base64_impl] with [strict_mode = 0]:
    a pad character completing a quad ends the parse ([goto done]),
    characters outside the alphabet are skipped. *)
Fixpoint a2b_loop (s : dstate) (cs : list ascii) : a2b_error + list Z :=
  match cs with
  | [] => a2b_finish s
  | c :: rest =>
      if Ascii.eqb c pad then
        let pads' := if 2 <=? quad_pos s then pads s + 1 else pads s in
        if (2 <=? quad_pos s) && (4 <=? quad_pos s + pads') then inr (List.rev (out s))
        else a2b_loop (DState (quad_pos s) (leftchar s) pads' (out s)) rest
      else
        match table_a2b c with
        | None => a2b_loop s rest
        | Some v => a2b_loop (a2b_char s v) rest
        end
  end.

Definition a2b_base64 (cs : list ascii) : a2b_error + list byte :=
  match a2b_loop (DState 0 0 0 []) cs with
  | inl e => inl e
  | inr zs => inr (map byte_of_Z zs)
  end.


(** [base64.b64encode(data).decode('utf-8')]. *)
Definition b64encode (bs : list byte) : string :=
  string_of_list_ascii (b2a_base64 bs).

End B64.

(* ------------------------------------------------------------------ *)
(** ** Strings and decimal rendering *)

Module Str.

Fixpoint dec_aux (fuel : nat) (n : Z) (acc : string) : string :=
  match fuel with
  | O => acc
  | S f =>
      let acc' := String (ascii_of_nat (Z.to_nat (48 + n mod 10))) acc in
      if n <? 10 then acc' else dec_aux f (n / 10) acc'
  end.

(** Decimal digits of a non-negative integer. *)
Definition dec (n : Z) : string := dec_aux (S (Z.to_nat (Z.log2_up (n + 1)))) n "".

(** [str(int)]. *)
Definition int_str (n : Z) : string :=
  if n <? 0 then "-" ++ dec (- n) else dec n.

(** Zero-padded decimal, [%02d], [%04d], [%06d]. *)
Fixpoint zfill (w : nat) (s : string) : string :=
  match w with
  | O => s
  | S w' => if (String.length s <? w)%nat then zfill w' ("0" ++ s) else s
  end.

Definition padded (w : nat) (n : Z) : string := zfill w (dec n).

Fixpoint contains_char (c : ascii) (s : string) : bool :=
  match s with
  | EmptyString => false
  | String x r => Ascii.eqb x c || contains_char c r
  end.

Fixpoint starts_with (p s : string) : bool :=
  match p, s with
  | EmptyString, _ => true
  | String a p', String b s' => Ascii.eqb a b && starts_with p' s'
  | _, _ => false
  end.

(** [needle in haystack] for Python strings. *)
Fixpoint contains (needle hay : string) : bool :=
  starts_with needle hay ||
  match hay with
  | EmptyString => false
  | String _ r => contains needle r
  end.

Fixpoint rfind_aux (c : ascii) (s : string) (i : nat) (best : option nat) : option nat :=
  match s with
  | EmptyString => best
  | String x r => rfind_aux c r (S i) (if Ascii.eqb x c then Some i else best)
  end.

(** [s.rfind(c)], [None] standing for [-1]. *)
Definition rfind (c : ascii) (s : string) : option nat := rfind_aux c s 0 None.

Definition slice_from (i : nat) (s : string) : string :=
  substring i (String.length s - i) s.

Definition slice_to (i : nat) (s : string) : string := substring 0 i s.

Definition ends_with_char (c : ascii) (s : string) : bool :=
  match String.get (String.length s - 1) s with
  | Some x => (0 <? String.length s)%nat && Ascii.eqb x c
  | None => false
  end.

Definition all_char (c : ascii) (s : string) : bool :=
  forallb (fun x => Ascii.eqb x c) (list_ascii_of_string s).

Definition rstrip_char (c : ascii) (s : string) : string :=
  string_of_list_ascii
    (List.rev ((fix drop (l : list ascii) := match l with
                | x :: r => if Ascii.eqb x c then drop r else l
                | [] => [] end) (List.rev (list_ascii_of_string s)))).

End Str.

(* ------------------------------------------------------------------ *)
(** ** Python values (the JSON job object) *)

Module Py.

(** [PFloat us] is the float [us / 10^6] (a [timedelta.total_seconds()]). *)
#[warnings="-register-all"]
Inductive pyval :=
| PNone
| PBool (b : bool)
| PInt (z : Z)
| PFloat (us : Z)
| PStr (s : string)
| PList (l : list pyval)
| PDict (d : list (string * pyval)).

Definition type_name (v : pyval) : string :=
  match v with
  | PNone => "NoneType" | PBool _ => "bool" | PInt _ => "int" | PFloat _ => "float"
  | PStr _ => "str" | PList _ => "list" | PDict _ => "dict"
  end.

(** Truth value testing ([not x]). *)
Definition truthy (v : pyval) : bool :=
  match v with
  | PNone => false
  | PBool b => b
  | PInt z => negb (z =? 0)
  | PFloat us => negb (us =? 0)
  | PStr s => negb (String.eqb s "")
  | PList l => negb (Nat.eqb (List.length l) 0)
  | PDict d => negb (Nat.eqb (List.length d) 0)
  end.

(** Fixed-point rendering of a float; CPython switches to exponent
    notation below [1e-4], which is not modelled. *)
Definition float_repr (us : Z) : string :=
  let a := Z.abs us in
  let frac := Str.rstrip_char "0" (Str.padded 6 (a mod 1000000)) in
  (if us <? 0 then "-" else "") ++ Str.dec (a / 1000000) ++ "."
  ++ (if String.eqb frac "" then "0" else frac).

(** [repr] (quotes inside strings are not escaped in this model). *)
Fixpoint repr (v : pyval) : string :=
  match v with
  | PNone => "None"
  | PBool b => if b then "True" else "False"
  | PInt z => Str.int_str z
  | PFloat us => float_repr us
  | PStr s => "'" ++ s ++ "'"
  | PList l =>
      "[" ++ (fix items (l : list pyval) : string :=
                match l with
                | [] => ""
                | [x] => repr x
                | x :: r => repr x ++ ", " ++ items r
                end) l ++ "]"
  | PDict d =>
      "{" ++ (fix items (d : list (string * pyval)) : string :=
                match d with
                | [] => ""
                | [(k, x)] => "'" ++ k ++ "': " ++ repr x
                | (k, x) :: r => "'" ++ k ++ "': " ++ repr x ++ ", " ++ items r
                end) d ++ "}"
  end.

(** [str(v)], also what an f-string interpolation [{v}] produces. *)
Definition str (v : pyval) : string :=
  match v with
  | PStr s => s
  | _ => repr v
  end.

Fixpoint assoc {A} (k : string) (d : list (string * A)) : option A :=
  match d with
  | [] => None
  | (k', x) :: r => if String.eqb k k' then Some x else assoc k r
  end.

(** [repr] of a list of strings, as in [str(cmd)] for a command list. *)
Definition repr_str_list (l : list string) : string :=
  repr (PList (map PStr l)).

End Py.

(* ------------------------------------------------------------------ *)
(** ** [posixpath] *)

Module Path.
Import Str.

(** [os.path.join(a, b)]. *)
Definition join (a b : string) : string :=
  if starts_with "/" b then b
  else if String.eqb a "" || ends_with_char "/" a then a ++ b
  else a ++ "/" ++ b.

Definition split_index (p : string) : nat :=
  match rfind "/" p with Some k => S k | None => O end.

(** [os.path.split(p)]. *)
Definition split (p : string) : string * string :=
  let i := split_index p in
  let head := slice_to i p in
  let tail := slice_from i p in
  let head := if negb (String.eqb head "") && negb (all_char "/" head)
              then rstrip_char "/" head else head in
  (head, tail).

Definition dirname (p : string) : string := fst (split p).

Definition basename (p : string) : string := slice_from (split_index p) p.

(** [genericpath._splitext(p, '/', None, '.')]: the extension starts at
    the last dot of the last component, unless that component has only
    dots before it. *)
Definition splitext (p : string) : string * string :=
  let first := match rfind "/" p with Some k => S k | None => O end in
  match rfind "." p with
  | Some d =>
      if (first <=? d)%nat
         && existsb (fun c => negb (Ascii.eqb c "."))
                    (list_ascii_of_string (substring first (d - first) p))
      then (slice_to d p, slice_from d p)
      else (p, "")
  | None => (p, "")
  end.

Fixpoint segments_aux (l : list ascii) (cur : list ascii) : list string :=
  match l with
  | [] => if (List.length cur =? 0)%nat then [] else [string_of_list_ascii (List.rev cur)]
  | c :: r =>
      if Ascii.eqb c "/" then
        app (if (List.length cur =? 0)%nat then [] else [string_of_list_ascii (List.rev cur)])
            (segments_aux r [])
      else segments_aux r (c :: cur)
  end.

(** Non-empty components of a path. *)
Definition segments (p : string) : list string := segments_aux (list_ascii_of_string p) [].

(** The kernel's view of a path: repeated and trailing slashes do not
    matter ([.] and [..] components are not resolved in this model). *)
Definition norm (p : string) : string :=
  let body := String.concat "/" (segments p) in
  if starts_with "/" p then "/" ++ body else body.

End Path.

(* ------------------------------------------------------------------ *)
(** ** Local filesystem *)

Module FS.

Inductive entry := EFile (data : list byte) | EDir.

(** Entries keyed by normalised absolute path, in directory-listing order. *)
Definition fs := list (string * entry).

Definition lookup (t : fs) (p : string) : option entry := Py.assoc (Path.norm p) t.

Definition lexists (t : fs) (p : string) : bool :=
  match lookup t p with Some _ => true | None => false end.

Definition isdir (t : fs) (p : string) : bool :=
  match lookup t p with Some EDir => true | _ => false end.

Definition isfile (t : fs) (p : string) : bool :=
  match lookup t p with Some (EFile _) => true | _ => false end.

(** Create or replace an entry (a replaced entry keeps its position). *)
Definition put (t : fs) (p : string) (e : entry) : fs :=
  let k := Path.norm p in
  if lexists t p then map (fun kv => if String.eqb (fst kv) k then (k, e) else kv) t
  else app t [(k, e)].

Definition del (t : fs) (p : string) : fs :=
  filter (fun kv => negb (String.eqb (fst kv) (Path.norm p))) t.

(** [shutil.rmtree]: the directory and everything below it. *)
Definition del_tree (t : fs) (p : string) : fs :=
  let k := Path.norm p in
  filter (fun kv => negb (String.eqb (fst kv) k || Str.starts_with (k ++ "/") (fst kv))) t.

(** [os.scandir] names of a directory ([[]] when it is not one, as
    [glob._listdir] swallows the [OSError]); [dironly] keeps directories. *)
Definition listdir (t : fs) (d : string) (dironly : bool) : list string :=
  if isdir t d then
    map (fun kv => Path.basename (fst kv))
        (filter (fun kv => String.eqb (Path.dirname (fst kv)) (Path.norm d)
                           && negb (String.eqb (fst kv) (Path.norm d))
                           && (negb dironly || match snd kv with EDir => true | _ => false end))
                t)
  else [].

End FS.

(* ------------------------------------------------------------------ *)
(** ** [fnmatch] and [glob] *)

Module Glob.
Import FS.

(** Items of a bracket expression: single characters and ranges. *)
Fixpoint class_items (l : list ascii) : list (ascii * ascii) :=
  match l with
  | a :: "-"%char :: b :: r => (a, b) :: class_items r
  | a :: r => (a, a) :: class_items r
  | [] => []
  end.

Definition in_class (items : list (ascii * ascii)) (c : ascii) : bool :=
  existsb (fun ab => (nat_of_ascii (fst ab) <=? nat_of_ascii c)%nat
                     && (nat_of_ascii c <=? nat_of_ascii (snd ab))%nat) items.

Fixpoint span_to_close (l : list ascii) (acc : list ascii) : option (list ascii * list ascii) :=
  match l with
  | [] => None
  | c :: r => if Ascii.eqb c "]" then Some (List.rev acc, r) else span_to_close r (c :: acc)
  end.

(** The text after ['['] as a bracket expression: [Some (negated, items,
    rest)], or [None] when there is no closing [']'] (then ['['] is a
    literal character).  A [']'] right after ['['] or ['[!'] belongs to
    the set.  CPython's treatment of reversed ranges and of set
    operators inside brackets is not modelled. *)
Definition parse_class (l : list ascii) : option (bool * list (ascii * ascii) * list ascii) :=
  let '(neg, l1) := match l with "!"%char :: r => (true, r) | _ => (false, l) end in
  let '(first, l2) := match l1 with "]"%char :: r => (["]"%char], r) | _ => ([], l1) end in
  match span_to_close l2 [] with
  | Some (body, rest) => Some (neg, class_items (app first body), rest)
  | None => None
  end.

(** [fnmatch.fnmatchcase(name, pat)] ([*] also matches newlines: the
    translated regex is compiled with [(?s:...)]). *)
Fixpoint fnmatch_aux (fuel : nat) (p n : list ascii) : bool :=
  match fuel with
  | O => false
  | S f =>
      match p with
      | [] => match n with [] => true | _ => false end
      | "*"%char :: p' =>
          (fix star (n : list ascii) : bool :=
             fnmatch_aux f p' n || match n with [] => false | _ :: n' => star n' end) n
      | "?"%char :: p' => match n with [] => false | _ :: n' => fnmatch_aux f p' n' end
      | "["%char :: p' =>
          match parse_class p' with
          | Some (neg, items, rest) =>
              match n with
              | [] => false
              | c :: n' => Bool.eqb (in_class items c) (negb neg) && fnmatch_aux f rest n'
              end
          | None =>
              match n with
              | c :: n' => Ascii.eqb c "[" && fnmatch_aux f p' n'
              | [] => false
              end
          end
      | c :: p' => match n with c' :: n' => Ascii.eqb c c' && fnmatch_aux f p' n' | [] => false end
      end
  end.

Definition fnmatch (name pat : string) : bool :=
  let p := list_ascii_of_string pat in
  fnmatch_aux (S (List.length p)) p (list_ascii_of_string name).

Definition has_magic (s : string) : bool :=
  Str.contains_char "*" s || Str.contains_char "?" s || Str.contains_char "[" s.

Definition ishidden (s : string) : bool := Str.starts_with "." s.

Definition isrecursive (s : string) : bool := String.eqb s "**".

Definition glob0 (t : fs) (dirname basename : string) (dironly : bool) : list string :=
  if negb (String.eqb basename "") then
    (if lexists t (Path.join dirname basename) then [basename] else [])
  else if isdir t dirname then [basename] else [].

Definition glob1 (t : fs) (dirname pattern : string) (dironly : bool) : list string :=
  let names := listdir t dirname dironly in
  let names := if ishidden pattern then names else filter (fun x => negb (ishidden x)) names in
  filter (fun x => fnmatch x pattern) names.

Fixpoint rlistdir (fuel : nat) (t : fs) (dirname : string) (dironly : bool) : list string :=
  match fuel with
  | O => []
  | S f =>
      flat_map (fun x =>
                  if ishidden x then []
                  else x :: map (Path.join x) (rlistdir f t (Path.join dirname x) dironly))
               (listdir t dirname dironly)
  end.

(** [glob._glob2]: the empty name first, then every non-hidden descendant. *)
Definition glob2 (t : fs) (dirname pattern : string) (dironly : bool) : list string :=
  "" :: rlistdir (S (List.length t)) t dirname dironly.

(** [glob._iglob]; relative patterns (listed against the working
    directory) never arise here, so [_listdir("")] is not modelled. *)
Fixpoint iglob (fuel : nat) (t : fs) (pathname : string) (recursive dironly : bool)
  : list string :=
  match fuel with
  | O => []
  | S f =>
      let '(dirname, basename) := Path.split pathname in
      if negb (has_magic pathname) then
        if negb (String.eqb basename "") then (if lexists t pathname then [pathname] else [])
        else if isdir t dirname then [pathname] else []
      else if String.eqb dirname "" then
        if recursive && isrecursive basename then glob2 t "" basename dironly
        else glob1 t "" basename dironly
      else
        let dirs := if negb (String.eqb dirname pathname) && has_magic dirname
                    then iglob f t dirname recursive true else [dirname] in
        let glob_in_dir :=
          if has_magic basename then
            if recursive && isrecursive basename then glob2 else glob1
          else glob0 in
        flat_map (fun d => map (Path.join d) (glob_in_dir t d basename dironly)) dirs
  end.

(** [glob.glob(pathname, recursive=...)]. *)
Definition glob (t : fs) (pathname : string) (recursive : bool) : list string :=
  let it := iglob (S (String.length pathname)) t pathname recursive false in
  if String.eqb pathname "" || (recursive && isrecursive (substring 0 2 pathname)) then
    match it with "" :: r => r | _ => it end
  else it.

End Glob.

(* ------------------------------------------------------------------ *)
(** ** [datetime] *)

Module Clock.

(** A naive [datetime] as microseconds since 1970-01-01T00:00:00;
    the civil date follows the proleptic Gregorian calendar. *)
Definition civil_from_days (z0 : Z) : Z * Z * Z :=
  let z := z0 + 719468 in
  let era := z / 146097 in
  let doe := z - era * 146097 in
  let yoe := (doe - doe / 1460 + doe / 36524 - doe / 146096) / 365 in
  let y := yoe + era * 400 in
  let doy := doe - (365 * yoe + yoe / 4 - yoe / 100) in
  let mp := (5 * doy + 2) / 153 in
  let d := doy - (153 * mp + 2) / 5 + 1 in
  let m := if mp <? 10 then mp + 3 else mp - 9 in
  (if m <=? 2 then y + 1 else y, m, d).

Definition us_per_day : Z := 86400 * 1000000.

Definition fields (t : Z) : Z * Z * Z * Z * Z * Z * Z :=
  let '(y, mo, d) := civil_from_days (t / us_per_day) in
  let r := t mod us_per_day in
  let secs := r / 1000000 in
  (y, mo, d, secs / 3600, secs mod 3600 / 60, secs mod 60, r mod 1000000).

(** [strftime('%Y%m%d_%H%M%S')]. *)
Definition strftime_compact (t : Z) : string :=
  let '(y, mo, d, h, mi, s, _) := fields t in
  Str.padded 4 y ++ Str.padded 2 mo ++ Str.padded 2 d ++ "_"
  ++ Str.padded 2 h ++ Str.padded 2 mi ++ Str.padded 2 s.

(** [isoformat()]: the microseconds are omitted when they are zero. *)
Definition isoformat (t : Z) : string :=
  let '(y, mo, d, h, mi, s, us) := fields t in
  Str.padded 4 y ++ "-" ++ Str.padded 2 mo ++ "-" ++ Str.padded 2 d ++ "T"
  ++ Str.padded 2 h ++ ":" ++ Str.padded 2 mi ++ ":" ++ Str.padded 2 s
  ++ (if us =? 0 then "" else "." ++ Str.padded 6 us).

End Clock.

(* ------------------------------------------------------------------ *)
(** ** Exceptions, the world, and the state/exception monad *)

Module Handler.
Import Py FS.

Inductive exc :=
| ValueError (msg : string)
| TypeError (msg : string)
| AttributeError (msg : string)
| BinasciiError (e : B64.a2b_error)
| RuntimeError (msg : string)
| TimeoutExpired (cmd : list string) (timeout : Z)
| FileNotFoundError (path : string)
| FileExistsError (path : string)
| IsADirectoryError (path : string)
| NotADirectoryError (path : string).

(** [str(e)]. *)
Definition exc_str (e : exc) : string :=
  match e with
  | ValueError m | TypeError m | AttributeError m | RuntimeError m => m
  | BinasciiError B64.IncorrectPadding => "Incorrect padding"
  | BinasciiError (B64.OneMoreThanMultipleOf4 n) =>
      "Invalid base64-encoded string: number of data characters (" ++ Str.int_str n
      ++ ") cannot be 1 more than a multiple of 4"
  | TimeoutExpired cmd t =>
      "Command '" ++ repr_str_list cmd ++ "' timed out after " ++ Str.int_str t ++ " seconds"
  | FileNotFoundError p => "[Errno 2] No such file or directory: '" ++ p ++ "'"
  | FileExistsError p => "[Errno 17] File exists: '" ++ p ++ "'"
  | IsADirectoryError p => "[Errno 21] Is a directory: '" ++ p ++ "'"
  | NotADirectoryError p => "[Errno 20] Not a directory: '" ++ p ++ "'"
  end.

(** What one run of the external tool does: how long it runs, its exit
    status and captured output, and the entries it writes. *)
Record tool_run := ToolRun {
  t_duration : Z;                  (* microseconds *)
  t_returncode : Z;
  t_stdout : string;
  t_stderr : string;
  t_writes : list (string * entry)
}.

(** The external separation tool: its behaviour on a command line and
    the filesystem it starts on. *)
Definition tool_fn := list string -> fs -> tool_run.

Inductive event :=
| EvMkdir (p : string)
| EvWrite (p : string)
| EvRead (p : string)
| EvRun (cmd : list string) (timeout : Z) (r : tool_run)
| EvGlob (pattern : string) (recursive : bool)
| EvRemove (p : string)
| EvRmtree (p : string).

Record world := World { w_fs : fs; w_clock : Z; w_log : list event }.

Definition M (A : Type) := world -> world * (exc + A).

Definition ret {A} (x : A) : M A := fun w => (w, inr x).
Definition raise {A} (e : exc) : M A := fun w => (w, inl e).
Definition bind {A B} (c : M A) (k : A -> M B) : M B :=
  fun w => match c w with
           | (w', inr x) => k x w'
           | (w', inl e) => (w', inl e)
           end.
Definition lift {A} (r : exc + A) : M A := fun w => (w, r).

(** [try: ... except Exception as e: ...] keeps the effects done before
    the exception. *)
Definition try_ {A} (c : M A) : M (exc + A) :=
  fun w => let '(w', r) := c w in (w', inr r).

Notation "x <- c ;; k" := (bind c (fun x => k))
  (at level 61, c at next level, right associativity).
Notation "c ;;; k" := (bind c (fun _ => k)) (at level 61, right associativity).

Definition emit (ev : event) : M unit :=
  fun w => (World (w_fs w) (w_clock w) (app (w_log w) [ev]), inr tt).

Definition set_fs (t : fs) : M unit :=
  fun w => (World t (w_clock w) (w_log w), inr tt).

Definition get_fs : M fs := fun w => (w, inr (w_fs w)).

Definition datetime_now : M Z := fun w => (w, inr (w_clock w)).

Definition advance (d : Z) : M unit :=
  fun w => (World (w_fs w) (w_clock w + d) (w_log w), inr tt).

(* ------------------------------------------------------------------ *)
(** ** File operations *)

(** [os.mkdir]. *)
Definition mkdir (p : string) : M unit :=
  t <- get_fs ;;
  if lexists t p then raise (FileExistsError p)
  else match lookup t (Path.dirname (Path.norm p)) with
       | Some EDir => set_fs (put t p EDir) ;;; emit (EvMkdir p)
       | Some (EFile _) => raise (NotADirectoryError p)
       | None => raise (FileNotFoundError p)
       end.

(** [os.makedirs(name, exist_ok=True)]. *)
Fixpoint makedirs_aux (fuel : nat) (name : string) : M unit :=
  match fuel with
  | O => raise (FileNotFoundError name)
  | S f =>
      let '(head, tail) := Path.split name in
      let '(head, tail) := if String.eqb tail "" then Path.split head else (head, tail) in
      t <- get_fs ;;
      done <- (if negb (String.eqb head "") && negb (String.eqb tail "") && negb (lexists t head)
       then (r <- try_ (makedirs_aux f head) ;;
             match r with
             | inl (FileExistsError _) | inr _ => ret tt
             | inl e => raise e
             end) ;;;
            ret (String.eqb tail ".")
       else ret false) ;;
      if done then ret tt else
      r <- try_ (mkdir name) ;;
      match r with
      | inr _ => ret tt
      | inl e => t <- get_fs ;; if isdir t name then ret tt else raise e
      end
  end.

Definition makedirs (name : string) : M unit := makedirs_aux (S (String.length name)) name.

(** [open(p, 'wb').write(data)]. *)
Definition write_file (p : string) (data : list byte) : M unit :=
  t <- get_fs ;;
  match lookup t p with
  | Some EDir => raise (IsADirectoryError p)
  | _ =>
      match lookup t (Path.dirname (Path.norm p)) with
      | Some EDir => set_fs (put t p (EFile data)) ;;; emit (EvWrite p)
      | Some (EFile _) => raise (NotADirectoryError p)
      | None => raise (FileNotFoundError p)
      end
  end.

(** [open(p, 'rb').read()]. *)
Definition read_file (p : string) : M (list byte) :=
  t <- get_fs ;;
  match lookup t p with
  | Some (EFile d) => emit (EvRead p) ;;; ret d
  | Some EDir => raise (IsADirectoryError p)
  | None => raise (FileNotFoundError p)
  end.

(** [os.remove]. *)
Definition remove (p : string) : M unit :=
  t <- get_fs ;;
  match lookup t p with
  | Some (EFile _) => set_fs (del t p) ;;; emit (EvRemove p)
  | Some EDir => raise (IsADirectoryError p)
  | None => raise (FileNotFoundError p)
  end.

(** [shutil.rmtree]. *)
Definition rmtree (p : string) : M unit :=
  t <- get_fs ;;
  if isdir t p then set_fs (del_tree t p) ;;; emit (EvRmtree p)
  else raise (NotADirectoryError p).

Definition glob_ (pattern : string) (recursive : bool) : M (list string) :=
  t <- get_fs ;; emit (EvGlob pattern recursive) ;;; ret (Glob.glob t pattern recursive).

(** [subprocess.run(command, capture_output=True, text=True, timeout=...)]:
    the tool's writes happen in either case; past the bound the child is
    killed and [TimeoutExpired] raised. *)
Definition subprocess_run (tool : tool_fn) (cmd : list string) (timeout : Z) : M tool_run :=
  t <- get_fs ;;
  let r := tool cmd t in
  emit (EvRun cmd timeout r) ;;;
  set_fs (fold_left (fun acc kv => put acc (fst kv) (snd kv)) (t_writes r) t) ;;;
  if timeout * 1000000 <? t_duration r
  then advance (timeout * 1000000) ;;; raise (TimeoutExpired cmd timeout)
  else advance (t_duration r) ;;; ret r.

(** [base64.b64decode(s)] ([validate=False]): the argument must be an
    ASCII [str] (or bytes-like, which a JSON job cannot carry). *)
Definition b64decode (v : pyval) : exc + list byte :=
  match v with
  | PStr s =>
      if forallb (fun c => (nat_of_ascii c <? 128)%nat) (list_ascii_of_string s) then
        match B64.a2b_base64 (list_ascii_of_string s) with
        | inl e => inl (BinasciiError e)
        | inr bs => inr bs
        end
      else inl (ValueError "string argument should contain only ASCII characters")
  | _ => inl (TypeError ("argument should be a bytes-like object or ASCII string, not '"
                         ++ type_name v ++ "'"))
  end.

(** [os.path.splitext(filename)[0]] on a job value. *)
Definition py_splitext_root (v : pyval) : exc + string :=
  match v with
  | PStr s => inr (fst (Path.splitext s))
  | _ => inl (TypeError ("expected str, bytes or os.PathLike object, not " ++ type_name v))
  end.

(** [x.get(k, default)]. *)
Definition py_get (v : pyval) (k : string) (default : pyval) : M pyval :=
  match v with
  | PDict d => ret (match assoc k d with Some x => x | None => default end)
  | _ => raise (AttributeError ("'" ++ type_name v ++ "' object has no attribute 'get'"))
  end.


(* ------------------------------------------------------------------ *)
(** ** [ServerlessVocalRemover] *)

(** The global [processor]: its scratch root and the device chosen once
    from [torch.cuda.is_available()].  Model pre-loading only touches the
    model cache, outside the scratch root, and is not modelled. *)
Record processor := Processor { temp_dir : string; device : string }.

Definition make_processor (cuda_available : bool) : processor :=
  Processor "/tmp/vocal_removal" (if cuda_available then "cuda" else "cpu").

(** [__init__]: [os.makedirs(self.temp_dir, exist_ok=True)]. *)
Definition init_processor (cuda_available : bool) : M processor :=
  let p := make_processor cuda_available in
  makedirs (temp_dir p) ;;; ret p.

(** Path of the decoded input: [input_<YYYYmmdd_HHMMSS>_<filename>]. *)
Definition input_file_path (p : processor) (now : Z) (filename : pyval) : string :=
  Path.join (temp_dir p) ("input_" ++ Clock.strftime_compact now ++ "_" ++ str filename).

(** [decode_audio_file]. *)
Definition decode_audio_file (p : processor) (audio_base64 filename : pyval) : M string :=
  now <- datetime_now ;;
  let file_path := input_file_path p now filename in
  audio_data <- lift (b64decode audio_base64) ;;
  write_file file_path audio_data ;;;
  ret file_path.

(** [encode_audio_file]. *)
Definition encode_audio_file (file_path : string) : M string :=
  audio_data <- read_file file_path ;;
  ret (B64.b64encode audio_data).

Definition output_dir_path (p : processor) (now : Z) : string :=
  Path.join (temp_dir p) ("demucs_output_" ++ Clock.strftime_compact now).

(** The Demucs command line of [remove_vocals_serverless]. *)
Definition demucs_command (p : processor) (model output_dir input_path : string) : list string :=
  ["python"; "-m"; "demucs"; "--mp3"; "--two-stems=vocals"; "-n"; model;
   "-o"; output_dir; "--device"; device p; "--shifts"; "1"; "--overlap"; "0.25";
   "--jobs"; "1"; input_path].

Definition demucs_timeout : Z := 300.

(** [os.path.join(output_dir, model, input_filename, "no_vocals.*")]. *)
Definition primary_pattern (output_dir model input_path : string) : string :=
  let input_filename := fst (Path.splitext (Path.basename input_path)) in
  Path.join (Path.join (Path.join output_dir model) input_filename) "no_vocals.*".

(** [os.path.join(output_dir, "**", "no_vocals.*")]. *)
Definition fallback_pattern (output_dir : string) : string :=
  Path.join (Path.join output_dir "**") "no_vocals.*".

(** The artifact search after a successful run. *)
Definition find_output (output_dir model input_path : string) : M string :=
  matching_files <- glob_ (primary_pattern output_dir model input_path) false ;;
  matching_files <- (match matching_files with
                     | [] => glob_ (fallback_pattern output_dir) true
                     | _ => ret matching_files
                     end) ;;
  match matching_files with
  | [] => raise (RuntimeError "Could not find Demucs output file")
  | output_path :: _ => ret output_path
  end.

(** [' '.join(command)] in the log line needs every item to be a [str];
    the model is item 6. *)
Definition model_as_str (model : pyval) : exc + string :=
  match model with
  | PStr m => inr m
  | _ => inl (TypeError ("sequence item 6: expected str instance, " ++ type_name model
                         ++ " found"))
  end.

(** [remove_vocals_serverless]. *)
Definition remove_vocals_serverless (tool : tool_fn) (p : processor)
    (input_path : string) (model : pyval) : M string :=
  now <- datetime_now ;;
  let output_dir := output_dir_path p now in
  makedirs output_dir ;;;
  m <- lift (model_as_str model) ;;
  result <- subprocess_run tool (demucs_command p m output_dir input_path) demucs_timeout ;;
  if negb (t_returncode result =? 0)
  then raise (RuntimeError ("Demucs processing failed: " ++ t_stderr result))
  else find_output output_dir m input_path.

(** [cleanup_files]: best effort, every failure swallowed. *)
Definition cleanup_one (file_path : string) : M unit :=
  r <- try_ (t <- get_fs ;;
             if lexists t file_path then
               if isfile t file_path then remove file_path
               else if isdir t file_path then rmtree file_path
               else ret tt
             else ret tt) ;;
  ret tt.

Fixpoint cleanup_files (file_paths : list string) : M unit :=
  match file_paths with
  | [] => ret tt
  | f :: r => cleanup_one f ;;; cleanup_files r
  end.

(* ------------------------------------------------------------------ *)
(** ** [handler] *)

Definition response := list (string * pyval).

(** The early return for a missing [audio_data]. *)
Definition no_audio_response : response := [("error", PStr "No audio data provided")].

(** The [except Exception as e] branch. *)
Definition failure_response (start : Z) (input_path : option string) (e : exc) : M response :=
  (match input_path with
   | Some ip => if String.eqb ip "" then ret tt else (r <- try_ (remove ip) ;; ret tt)
   | None => ret tt
   end) ;;;
  t <- datetime_now ;;
  ts <- datetime_now ;;
  ret [("success", PBool false); ("error", PStr (exc_str e));
       ("processing_time", PFloat (t - start)); ("timestamp", PStr (Clock.isoformat ts));
       ("serverless", PBool true)].

(** Lines 191-199: the job's parameters, [None] for the early return. *)
Definition extract_input (job : pyval) : M (option (pyval * pyval * pyval)) :=
  job_input <- py_get job "input" (PDict []) ;;
  audio_data <- py_get job_input "audio_data" PNone ;;
  filename <- py_get job_input "filename" (PStr "audio.mp3") ;;
  method <- py_get job_input "method" (PStr "htdemucs_ft") ;;
  if negb (truthy audio_data) then ret None
  else ret (Some (audio_data, filename, method)).

(** Lines 207-232, after [input_path] is bound. *)
Definition process (tool : tool_fn) (p : processor) (start : Z)
    (input_path : string) (filename method : pyval) : M response :=
  output_path <- remove_vocals_serverless tool p input_path method ;;
  result_data <- encode_audio_file output_path ;;
  t <- datetime_now ;;
  let processing_time := t - start in
  root <- lift (py_splitext_root filename) ;;
  ts <- datetime_now ;;
  let resp := [("success", PBool true); ("processed_audio", PStr result_data);
               ("processing_time", PFloat processing_time); ("method", method);
               ("gpu_used", PStr (device p));
               ("output_filename", PStr (root ++ "_no_vocals.wav"));
               ("timestamp", PStr (Clock.isoformat ts)); ("serverless", PBool true)] in
  cleanup_files [input_path; Path.dirname output_path] ;;;
  ret resp.

(** [handler(job)]. *)
Definition handler (tool : tool_fn) (p : processor) (job : pyval) : M response :=
  start <- datetime_now ;;
  r <- try_ (extract_input job) ;;
  match r with
  | inl e => failure_response start None e
  | inr None => ret no_audio_response
  | inr (Some (audio_data, filename, method)) =>
      r2 <- try_ (decode_audio_file p audio_data filename) ;;
      match r2 with
      | inl e => failure_response start None e
      | inr input_path =>
          r3 <- try_ (process tool p start input_path filename method) ;;
          match r3 with
          | inl e => failure_response start (Some input_path) e
          | inr resp => ret resp
          end
      end
  end.

End Handler.

(* ------------------------------------------------------------------ *)
(** ** Specification vocabulary *)

Module Spec.
Import Py FS Handler.

Definition zrange (n : nat) : list Z := map Z.of_nat (seq 0 n).

(** [triple c P]: from any world, [c] appends some events [new] to the
    log, and [P new result] holds. *)
Definition triple {A} (c : M A) (P : list event -> exc + A -> Prop) : Prop :=
  forall w, exists new, w_log (fst (c w)) = app (w_log w) new /\ P new (snd (c w)).

Definition events_in {A} (Q : event -> Prop) (c : M A) : Prop :=
  triple c (fun n _ => Forall Q n).

Definition is_run (ev : event) : bool := match ev with EvRun _ _ _ => true | _ => false end.
Definition is_glob (ev : event) : bool := match ev with EvGlob _ _ => true | _ => false end.

Definition quiet (ev : event) : Prop := is_run ev = false /\ is_glob ev = false.

Definition timed_out (r : tool_run) : bool := demucs_timeout * 1000000 <? t_duration r.

(** The events of a computation that runs the tool at most once, always
    with the [300] second bound and an mp3 command line, and never
    searches before the run. *)
Definition one_run (n : list event) (norun : Prop)
    (after : list string -> tool_run -> list event -> Prop) : Prop :=
  (Forall quiet n /\ norun) \/
  exists cmd run pre post,
    n = app pre (EvRun cmd demucs_timeout run :: post) /\
    Forall quiet pre /\ Forall (fun e => is_run e = false) post /\
    In "--mp3" cmd /\ after cmd run post.

(** What [remove_vocals_serverless], and [process] around it, do with a
    run that times out or fails. *)
Definition stage_spec {A} (n : list event) (r : exc + A) : Prop :=
  one_run n (exists e, r = inl e) (fun cmd run post =>
    (timed_out run = true -> post = [] /\ r = inl (TimeoutExpired cmd demucs_timeout)) /\
    (timed_out run = false -> t_returncode run <> 0 ->
       post = [] /\ r = inl (RuntimeError ("Demucs processing failed: " ++ t_stderr run)))).

Definition keys (resp : response) : list string := map fst resp.

Definition success_keys : list string :=
  ["success"; "processed_audio"; "processing_time"; "method"; "gpu_used";
   "output_filename"; "timestamp"; "serverless"].

Definition failure_keys : list string :=
  ["success"; "error"; "processing_time"; "timestamp"; "serverless"].

Definition failure_with (r : exc + response) (msg : string) : Prop :=
  exists resp, r = inr resp /\ keys resp = failure_keys /\
    assoc "success" resp = Some (PBool false) /\ assoc "error" resp = Some (PStr msg).

Definition handler_spec (n : list event) (r : exc + response) : Prop :=
  one_run n True (fun cmd run post =>
    (timed_out run = true ->
       Forall (fun e => is_glob e = false) post /\
       failure_with r (exc_str (TimeoutExpired cmd demucs_timeout))) /\
    (timed_out run = false -> t_returncode run <> 0 ->
       Forall (fun e => is_glob e = false) post /\
       failure_with r ("Demucs processing failed: " ++ t_stderr run))).

(** The input fields as [handler] reads them. *)
Definition job_input_of (job : pyval) : pyval :=
  match job with
  | PDict d => match assoc "input" d with Some x => x | None => PDict [] end
  | _ => PNone
  end.

Definition field (v : pyval) (k : string) (default : pyval) : pyval :=
  match v with
  | PDict d => match assoc k d with Some x => x | None => default end
  | _ => PNone
  end.

Definition job_filename (job : pyval) : pyval :=
  field (job_input_of job) "filename" (PStr "audio.mp3").

(** Jobs that take the early return of line 199: a mapping whose input
    mapping has no truthy [audio_data]. *)
Definition missing_audio (job : pyval) : bool :=
  match job, job_input_of job with
  | PDict _, PDict _ => negb (truthy (field (job_input_of job) "audio_data" PNone))
  | _, _ => false
  end.

(** A success response of [handler] for [job]: the keys of lines
    216-225, [success] true, and [output_filename] built from the job's
    filename. *)
Definition success_response (job : pyval) (resp : response) : Prop :=
  keys resp = success_keys /\ assoc "success" resp = Some (PBool true) /\
  exists fn, job_filename job = PStr fn /\
    assoc "output_filename" resp = Some (PStr (fst (Path.splitext fn) ++ "_no_vocals.wav")).

(** A payload in canonical Base64: the encoding of some non-empty bytes. *)
Definition canonical_b64 (s : string) : Prop :=
  exists bs, bs <> [] /\ s = B64.b64encode bs.

End Spec.

(* ------------------------------------------------------------------ *)
(** ** Concrete runs *)

Module Scenario.
Import Py FS Handler.

(** A fresh container: the scratch root exists, the clock reads
    2026-10-14 17:46:40 UTC. *)
Definition w0 : world :=
  World [("/tmp", EDir); ("/tmp/vocal_removal", EDir)] 1792000000000000 [].

(** A tool that succeeds after 2 s and lays out its stems as Demucs does:
    [<output_dir>/<model>/<input stem>/{vocals,no_vocals}.mp3]. *)
Definition stub_ok : tool_fn := fun cmd _ =>
  let od := nth 8 cmd "" in let m := nth 6 cmd "" in let ip := last cmd "" in
  let stem := fst (Path.splitext (Path.basename ip)) in
  let d1 := Path.join od m in let d2 := Path.join d1 stem in
  ToolRun 2000000 0 "" "" [(d1, EDir); (d2, EDir);
                           (Path.join d2 "vocals.mp3", EFile [Byte.x01]);
                           (Path.join d2 "no_vocals.mp3", EFile [Byte.x41; Byte.x42])].

(** A tool that exits with status 1 after 1 s. *)
Definition stub_fail : tool_fn := fun _ _ => ToolRun 1000000 1 "out text" "err text" [].

(** A tool that would run for 400 s. *)
Definition stub_slow : tool_fn := fun _ _ => ToolRun 400000000 0 "" "" [].

Definition job1 : pyval :=
  PDict [("input", PDict [("audio_data", PStr "QUJD"); ("filename", PStr "test.wav");
                          ("method", PStr "htdemucs_ft")])].

(** [{"input": {}}]. *)
Definition job_no_audio : pyval := PDict [("input", PDict [])].

Definition gpu : processor := make_processor true.
Definition cpu : processor := make_processor false.

End Scenario.

(* ================================================================== *)
(** * Codec lemmas *)

Module B64Facts.
Import B64.
Local Open Scope list_scope.


Lemma zrange_spec (n : nat) (x : Z) : 0 <= x < Z.of_nat n -> In x (Spec.zrange n).
Proof.
  intros Hx. unfold Spec.zrange. apply in_map_iff. exists (Z.to_nat x).
  split; [lia|]. apply in_seq. lia.
Qed.

Lemma check1 (P : Z -> bool) (n : nat) :
  forallb P (Spec.zrange n) = true -> forall x, 0 <= x < Z.of_nat n -> P x = true.
Proof.
  intros H x Hx. rewrite forallb_forall in H. apply H, zrange_spec, Hx.
Qed.

Lemma check2 (P : Z -> Z -> bool) (n : nat) :
  forallb (fun x => forallb (P x) (Spec.zrange n)) (Spec.zrange n) = true ->
  forall x y, 0 <= x < Z.of_nat n -> 0 <= y < Z.of_nat n -> P x y = true.
Proof.
  intros H x y Hx Hy.
  apply (check1 (P x) n); [|exact Hy].
  exact (check1 (fun x => forallb (P x) (Spec.zrange n)) n H x Hx).
Qed.

Lemma byte_Z_range (b : byte) : 0 <= byte_Z b < 256.
Proof.
  unfold byte_Z. pose proof (Byte.to_N_bounded b). lia.
Qed.

Lemma byte_of_Z_byte_Z (b : byte) : byte_of_Z (byte_Z b) = b.
Proof.
  unfold byte_of_Z, byte_Z.
  assert (E : Z.land (Z.of_N (Byte.to_N b)) 255 = Z.of_N (Byte.to_N b)).
  { change 255 with (Z.ones 8). rewrite Z.land_ones by lia.
    apply Z.mod_small. pose proof (Byte.to_N_bounded b). lia. }
  rewrite E, N2Z.id, Byte.of_to_N. reflexivity.
Qed.

Lemma sextet_range (e : Z) : 0 <= Z.land e 63 < 64.
Proof.
  change 63 with (Z.ones 6). rewrite Z.land_ones by lia.
  apply Z.mod_pos_bound. lia.
Qed.

Lemma a2b_b2a_all :
  forallb (fun n => match table_a2b (table_b2a n) with
                    | Some m => (m =? n) && negb (Ascii.eqb (table_b2a n) pad)
                    | None => false end) (Spec.zrange 64) = true.
Proof. vm_compute. reflexivity. Qed.

Lemma a2b_b2a (e : Z) :
  table_a2b (table_b2a (Z.land e 63)) = Some (Z.land e 63) /\
  Ascii.eqb (table_b2a (Z.land e 63)) pad = false.
Proof.
  pose proof (check1 _ 64%nat a2b_b2a_all (Z.land e 63) (sextet_range e)) as H.
  cbv beta in H.
  destruct (table_a2b (table_b2a (Z.land e 63))) as [m|]; [|discriminate].
  apply andb_true_iff in H as [H1 H2]. apply Z.eqb_eq in H1. subst m.
  apply negb_true_iff in H2. auto.
Qed.

Lemma loop_sextet (s : dstate) (e : Z) (rest : list ascii) :
  a2b_loop s (table_b2a (Z.land e 63) :: rest) =
  a2b_loop (a2b_char s (Z.land e 63)) rest.
Proof.
  destruct (a2b_b2a e) as [H1 H2].
  cbn [a2b_loop]. rewrite H2, H1. reflexivity.
Qed.

(** The bit identities of one quad, checked over all byte values. *)
Lemma dec1_all : forallb (fun x => forallb (fun y =>
  Z.land (Z.lor (Z.shiftl (Z.land (Z.shiftr x 2) 63) 2)
     (Z.shiftr (Z.land (Z.lor (Z.shiftl x 4) (Z.shiftr y 4)) 63) 4)) 255 =? x)
  (Spec.zrange 256)) (Spec.zrange 256) = true.
Proof. vm_compute. reflexivity. Qed.

Lemma dec1_tail_all : forallb (fun x =>
  Z.land (Z.lor (Z.shiftl (Z.land (Z.shiftr x 2) 63) 2)
     (Z.shiftr (Z.land (Z.shiftl x 4) 63) 4)) 255 =? x) (Spec.zrange 256) = true.
Proof. vm_compute. reflexivity. Qed.

Lemma left2_all : forallb (fun x => forallb (fun y =>
  Z.land (Z.land (Z.lor (Z.shiftl x 4) (Z.shiftr y 4)) 63) 15 =?
  Z.land (Z.shiftr y 4) 15) (Spec.zrange 256)) (Spec.zrange 256) = true.
Proof. vm_compute. reflexivity. Qed.

Lemma dec2_all : forallb (fun y => forallb (fun z =>
  Z.land (Z.lor (Z.shiftl (Z.land (Z.shiftr y 4) 15) 4)
     (Z.shiftr (Z.land (Z.lor (Z.shiftl y 2) (Z.shiftr z 6)) 63) 2)) 255 =? y)
  (Spec.zrange 256)) (Spec.zrange 256) = true.
Proof. vm_compute. reflexivity. Qed.

Lemma dec2_tail_all : forallb (fun y =>
  Z.land (Z.lor (Z.shiftl (Z.land (Z.shiftr y 4) 15) 4)
     (Z.shiftr (Z.land (Z.shiftl y 2) 63) 2)) 255 =? y) (Spec.zrange 256) = true.
Proof. vm_compute. reflexivity. Qed.

Lemma dec3_all : forallb (fun y => forallb (fun z =>
  Z.land (Z.lor (Z.shiftl (Z.land (Z.land (Z.lor (Z.shiftl y 2) (Z.shiftr z 6)) 63) 3) 6)
     (Z.land z 63)) 255 =? z) (Spec.zrange 256)) (Spec.zrange 256) = true.
Proof. vm_compute. reflexivity. Qed.


Ltac byte_check lem :=
  match goal with
  | |- _ = _ => apply Z.eqb_eq
  end;
  first [ apply (check2 _ 256%nat lem); apply byte_Z_range
        | apply (check1 _ 256%nat lem); apply byte_Z_range ].

Lemma loop_pad (s : dstate) (rest : list ascii) :
  a2b_loop s (pad :: rest) =
  let pads' := if 2 <=? quad_pos s then pads s + 1 else pads s in
  if (2 <=? quad_pos s) && (4 <=? quad_pos s + pads') then inr (List.rev (out s))
  else a2b_loop (DState (quad_pos s) (leftchar s) pads' (out s)) rest.
Proof. reflexivity. Qed.

(** Decoding the encoding of [bs] after whole quads already decoded. *)
Lemma a2b_loop_b2a (n : nat) : forall (bs : list byte) (acc : list Z),
  (List.length bs <= n)%nat ->
  a2b_loop (DState 0 0 0 acc) (b2a_base64 bs) = inr (List.rev acc ++ map byte_Z bs).
Proof.
  induction n as [|n IH]; intros bs acc Hlen.
  - destruct bs; [simpl; rewrite app_nil_r; reflexivity | simpl in Hlen; lia].
  - destruct bs as [|b0 [|b1 [|b2 rest]]].
    + simpl. rewrite app_nil_r. reflexivity.
    + cbn [b2a_base64]. rewrite !loop_sextet, loop_pad. cbn -[Z.land Z.lor Z.shiftl Z.shiftr].
      f_equal. cbn [map].
      replace (Z.land (Z.lor (Z.shiftl (Z.land (Z.shiftr (byte_Z b0) 2) 63) 2)
                 (Z.shiftr (Z.land (Z.shiftl (byte_Z b0) 4) 63) 4)) 255) with (byte_Z b0)
        by (symmetry; byte_check dec1_tail_all).
      reflexivity.
    + cbn [b2a_base64]. rewrite !loop_sextet, loop_pad. cbn -[Z.land Z.lor Z.shiftl Z.shiftr].
      f_equal. cbn [map].
      replace (Z.land (Z.lor (Z.shiftl (Z.land (Z.shiftr (byte_Z b0) 2) 63) 2)
                 (Z.shiftr (Z.land (Z.lor (Z.shiftl (byte_Z b0) 4) (Z.shiftr (byte_Z b1) 4)) 63) 4)) 255)
        with (byte_Z b0) by (symmetry; byte_check dec1_all).
      replace (Z.land (Z.land (Z.lor (Z.shiftl (byte_Z b0) 4) (Z.shiftr (byte_Z b1) 4)) 63) 15)
        with (Z.land (Z.shiftr (byte_Z b1) 4) 15) by (symmetry; byte_check left2_all).
      replace (Z.land (Z.lor (Z.shiftl (Z.land (Z.shiftr (byte_Z b1) 4) 15) 4)
                 (Z.shiftr (Z.land (Z.shiftl (byte_Z b1) 2) 63) 2)) 255)
        with (byte_Z b1) by (symmetry; byte_check dec2_tail_all).
      rewrite <- app_assoc. reflexivity.
    + cbn [b2a_base64]. rewrite !loop_sextet.
      cbn -[Z.land Z.lor Z.shiftl Z.shiftr a2b_loop].
      replace (Z.land (Z.lor (Z.shiftl (Z.land (Z.shiftr (byte_Z b0) 2) 63) 2)
                 (Z.shiftr (Z.land (Z.lor (Z.shiftl (byte_Z b0) 4) (Z.shiftr (byte_Z b1) 4)) 63) 4)) 255)
        with (byte_Z b0) by (symmetry; byte_check dec1_all).
      replace (Z.land (Z.land (Z.lor (Z.shiftl (byte_Z b0) 4) (Z.shiftr (byte_Z b1) 4)) 63) 15)
        with (Z.land (Z.shiftr (byte_Z b1) 4) 15) by (symmetry; byte_check left2_all).
      replace (Z.land (Z.lor (Z.shiftl (Z.land (Z.shiftr (byte_Z b1) 4) 15) 4)
                 (Z.shiftr (Z.land (Z.lor (Z.shiftl (byte_Z b1) 2) (Z.shiftr (byte_Z b2) 6)) 63) 2)) 255)
        with (byte_Z b1) by (symmetry; byte_check dec2_all).
      replace (Z.land (Z.lor (Z.shiftl (Z.land (Z.land (Z.lor (Z.shiftl (byte_Z b1) 2)
                 (Z.shiftr (byte_Z b2) 6)) 63) 3) 6) (Z.land (byte_Z b2) 63)) 255)
        with (byte_Z b2) by (symmetry; byte_check dec3_all).
      rewrite IH by (simpl in Hlen; lia).
      cbn [List.rev map]. rewrite <- !app_assoc. reflexivity.
Qed.

Lemma a2b_b2a_base64 (bs : list byte) : a2b_base64 (b2a_base64 bs) = inr bs.
Proof.
  unfold a2b_base64. rewrite (a2b_loop_b2a (List.length bs) bs [] (le_n _)).
  f_equal. simpl. rewrite map_map.
  transitivity (map (fun b => b) bs); [|apply map_id].
  apply map_ext. apply byte_of_Z_byte_Z.
Qed.

End B64Facts.

(* ================================================================== *)
(** * Program logic over [M] *)

Module Hoare.
Import Py FS Handler Spec.
Local Open Scope list_scope.

Lemma triple_ret {A} (x : A) (P : list event -> exc + A -> Prop) :
  P [] (inr x) -> triple (ret x) P.
Proof. intros H w. exists []. simpl. rewrite app_nil_r. auto. Qed.

Lemma triple_raise {A} (e : exc) (P : list event -> exc + A -> Prop) :
  P [] (inl e) -> triple (raise e) P.
Proof. intros H w. exists []. simpl. rewrite app_nil_r. auto. Qed.

Lemma triple_lift {A} (r : exc + A) (P : list event -> exc + A -> Prop) :
  P [] r -> triple (lift r) P.
Proof. intros H w. exists []. simpl. rewrite app_nil_r. auto. Qed.

Lemma triple_weaken {A} (c : M A) (P1 P : list event -> exc + A -> Prop) :
  triple c P1 -> (forall n r, P1 n r -> P n r) -> triple c P.
Proof.
  intros H HP w. destruct (H w) as [n [H1 H2]]. exists n. auto.
Qed.

Lemma triple_bind {A B} (c : M A) (k : A -> M B) P1 (P : list event -> exc + B -> Prop) :
  triple c P1 ->
  (forall n1 e, P1 n1 (inl e) -> P n1 (inl e)) ->
  (forall n1 x, P1 n1 (inr x) -> triple (k x) (fun n2 r => P (app n1 n2) r)) ->
  triple (bind c k) P.
Proof.
  intros Hc He Hk w. unfold bind.
  destruct (Hc w) as [n1 [Hl HP]].
  destruct (c w) as [w1 [e|x]]; simpl in *.
  - exists n1. auto.
  - destruct (Hk n1 x HP w1) as [n2 [Hl2 HP2]].
    exists (app n1 n2). rewrite Hl2, Hl, app_assoc. auto.
Qed.

Lemma triple_try {A} (c : M A) P :
  triple c P -> triple (try_ c) (fun n r => exists r', r = inr r' /\ P n r').
Proof.
  intros H w. unfold try_. destruct (H w) as [n [H1 H2]].
  destruct (c w) as [w' r]. simpl in *. exists n. eauto.
Qed.

Lemma triple_get_fs (P : list event -> exc + fs -> Prop) :
  (forall t, P [] (inr t)) -> triple get_fs P.
Proof. intros H w. exists []. simpl. rewrite app_nil_r. auto. Qed.

Lemma triple_now (P : list event -> exc + Z -> Prop) :
  (forall t, P [] (inr t)) -> triple datetime_now P.
Proof. intros H w. exists []. simpl. rewrite app_nil_r. auto. Qed.

Lemma triple_set_fs (t : fs) (P : list event -> exc + unit -> Prop) :
  P [] (inr tt) -> triple (set_fs t) P.
Proof. intros H w. exists []. simpl. rewrite app_nil_r. auto. Qed.

Lemma triple_advance (d : Z) (P : list event -> exc + unit -> Prop) :
  P [] (inr tt) -> triple (advance d) P.
Proof. intros H w. exists []. simpl. rewrite app_nil_r. auto. Qed.

Lemma triple_emit (ev : event) (P : list event -> exc + unit -> Prop) :
  P [ev] (inr tt) -> triple (emit ev) P.
Proof. intros H w. exists [ev]. simpl. auto. Qed.

(** Event-only specifications. *)

Lemma events_in_bind {A B} (Q : event -> Prop) (c : M A) (k : A -> M B) :
  events_in Q c -> (forall x, events_in Q (k x)) -> events_in Q (bind c k).
Proof.
  intros Hc Hk. eapply triple_bind; [exact Hc | auto |].
  intros n1 x H1. eapply triple_weaken; [apply Hk|].
  intros n2 r H2. apply Forall_app. auto.
Qed.

Lemma events_in_try {A} (Q : event -> Prop) (c : M A) :
  events_in Q c -> events_in Q (try_ c).
Proof.
  intros H. eapply triple_weaken; [apply triple_try, H|].
  intros n r [r' [_ H']]. exact H'.
Qed.

Lemma events_in_weaken {A} (Q Q' : event -> Prop) (c : M A) :
  events_in Q c -> (forall e, Q e -> Q' e) -> events_in Q' c.
Proof.
  intros H HQ. eapply triple_weaken; [exact H|].
  intros n r Hn. eapply Forall_impl; [exact HQ | exact Hn].
Qed.

Ltac evs :=
  repeat match goal with
  | |- events_in _ (bind _ _) => apply events_in_bind; [|intro]
  | |- events_in _ (try_ _) => apply events_in_try
  | |- events_in _ (ret _) => apply triple_ret; constructor
  | |- events_in _ (raise _) => apply triple_raise; constructor
  | |- events_in _ (lift _) => apply triple_lift; constructor
  | |- events_in _ get_fs => apply triple_get_fs; constructor
  | |- events_in _ datetime_now => apply triple_now; constructor
  | |- events_in _ (set_fs _) => apply triple_set_fs; constructor
  | |- events_in _ (advance _) => apply triple_advance; constructor
  | |- events_in _ (emit _) => apply triple_emit; repeat constructor
  | |- events_in _ (match ?x with _ => _ end) => destruct x
  end.

Lemma mkdir_quiet (p : string) : events_in quiet (mkdir p).
Proof. unfold mkdir. evs. Qed.

Lemma makedirs_aux_quiet (fuel : nat) (name : string) : events_in quiet (makedirs_aux fuel name).
Proof.
  revert name. induction fuel as [|f IH]; intros name; simpl.
  - evs.
  - evs; try apply IH; try apply mkdir_quiet.
Qed.

Lemma makedirs_quiet (name : string) : events_in quiet (makedirs name).
Proof. apply makedirs_aux_quiet. Qed.

Lemma write_file_quiet (p : string) (d : list byte) : events_in quiet (write_file p d).
Proof. unfold write_file. evs. Qed.

Lemma read_file_quiet (p : string) : events_in quiet (read_file p).
Proof. unfold read_file. evs. Qed.

Lemma remove_quiet (p : string) : events_in quiet (remove p).
Proof. unfold remove. evs. Qed.

Lemma rmtree_quiet (p : string) : events_in quiet (rmtree p).
Proof. unfold rmtree. evs. Qed.

Lemma cleanup_files_quiet (l : list string) : events_in quiet (cleanup_files l).
Proof.
  induction l as [|f r IH]; simpl; evs; auto;
    unfold cleanup_one; evs; auto using remove_quiet, rmtree_quiet.
Qed.

Lemma decode_quiet (p : processor) (a f : pyval) : events_in quiet (decode_audio_file p a f).
Proof. unfold decode_audio_file. evs. apply write_file_quiet. Qed.

Lemma encode_quiet (f : string) : events_in quiet (encode_audio_file f).
Proof. unfold encode_audio_file. evs. apply read_file_quiet. Qed.

Lemma extract_quiet (job : pyval) : events_in quiet (extract_input job).
Proof. unfold extract_input, py_get. evs. Qed.

Lemma find_output_no_run (od m ip : string) :
  events_in (fun e => is_run e = false) (find_output od m ip).
Proof. unfold find_output, glob_. evs. Qed.

End Hoare.

Module RunFacts.
Import Py FS Handler Spec Hoare.
Local Open Scope list_scope.

Lemma subprocess_run_spec (tool : tool_fn) (cmd : list string) (to : Z) :
  triple (subprocess_run tool cmd to)
    (fun n r => exists run, n = [EvRun cmd to run] /\
       (if to * 1000000 <? t_duration run then r = inl (TimeoutExpired cmd to) else r = inr run)).
Proof.
  intros w. unfold subprocess_run, bind, get_fs, emit, set_fs, advance, raise, ret.
  simpl. exists [EvRun cmd to (tool cmd (w_fs w))].
  destruct (to * 1000000 <? t_duration (tool cmd (w_fs w))) eqn:E; simpl;
    (split; [reflexivity|]); exists (tool cmd (w_fs w)); rewrite E; auto.
Qed.

Lemma triple_quiet_seq {A B} (c : M A) (k : A -> M B) (P : list event -> exc + B -> Prop) :
  (forall n1 n2 r, Forall quiet n1 -> P n2 r -> P (n1 ++ n2) r) ->
  (forall n e, Forall quiet n -> P n (inl e)) ->
  events_in quiet c -> (forall x, triple (k x) P) -> triple (bind c k) P.
Proof.
  intros Hpre Herr Hc Hk. eapply triple_bind; [exact Hc | auto |].
  intros n1 x H1. eapply triple_weaken; [apply Hk|]. intros n2 r H2. auto.
Qed.

Lemma one_run_prefix (n1 n2 : list event) N A :
  Forall quiet n1 -> one_run n2 N A -> one_run (n1 ++ n2) N A.
Proof.
  intros Hq [[Hn HN] | (cmd & run & pre & post & -> & Hpre & Hpost & Hmp3 & Ha)].
  - left. split; [apply Forall_app; auto | exact HN].
  - right. exists cmd, run, (n1 ++ pre), post. rewrite app_assoc.
    repeat split; auto. apply Forall_app; auto.
Qed.

Lemma stage_prefix {X} (n1 n2 : list event) (r : exc + X) :
  Forall quiet n1 -> stage_spec n2 r -> stage_spec (n1 ++ n2) r.
Proof. apply one_run_prefix. Qed.

Lemma stage_quiet_err {X} (n : list event) (e : exc) :
  Forall quiet n -> @stage_spec X n (inl e).
Proof. intros H. left. eauto. Qed.

Lemma mp3_in_command (p : processor) (m od ip : string) : In "--mp3" (demucs_command p m od ip).
Proof. simpl. tauto. Qed.

Lemma remove_vocals_spec (tool : tool_fn) (p : processor) (ip : string) (model : pyval) :
  triple (remove_vocals_serverless tool p ip model) stage_spec.
Proof.
  unfold remove_vocals_serverless.
  apply triple_quiet_seq; [apply stage_prefix | apply stage_quiet_err | evs | intros now].
  apply triple_quiet_seq; [apply stage_prefix | apply stage_quiet_err | apply makedirs_quiet | intros _].
  apply triple_quiet_seq; [apply stage_prefix | apply stage_quiet_err | evs | intros m].
  set (cmd := demucs_command p m (output_dir_path p now) ip).
  eapply triple_bind; [apply subprocess_run_spec | |].
  - intros n1 e [run [-> Hr]]. right. exists cmd, run, [], [].
    refine (conj eq_refl (conj (Forall_nil _) (conj (Forall_nil _)
              (conj (mp3_in_command _ _ _ _) (conj _ _))))); unfold timed_out.
    + intros Ht. rewrite Ht in Hr. injection Hr as ->. split; reflexivity.
    + intros Ht. rewrite Ht in Hr. discriminate.
  - intros n1 x [run [-> Hr]].
    destruct (demucs_timeout * 1000000 <? t_duration run) eqn:Ht; [discriminate|].
    injection Hr as <-.
    destruct (t_returncode x =? 0) eqn:Hc; simpl.
    + eapply triple_weaken; [apply find_output_no_run|]. intros n2 r Hn2.
      right. exists cmd, x, [], n2.
      refine (conj eq_refl (conj (Forall_nil _) (conj Hn2
                (conj (mp3_in_command _ _ _ _) (conj _ _))))); unfold timed_out.
      * rewrite Ht. discriminate.
      * intros _ Hne. apply Z.eqb_eq in Hc. contradiction.
    + apply triple_raise. right. exists cmd, x, [], [].
      refine (conj eq_refl (conj (Forall_nil _) (conj (Forall_nil _)
                (conj (mp3_in_command _ _ _ _) (conj _ _))))); unfold timed_out.
      * rewrite Ht. discriminate.
      * intros _ _. split; reflexivity.
Qed.

Lemma stage_extend_ok {X Y} (n1 n2 : list event) (x : X) (r : exc + Y) :
  stage_spec n1 (inr x) -> Forall (fun e => is_run e = false) n2 -> stage_spec (n1 ++ n2) r.
Proof.
  intros [[_ [e He]] | (cmd & run & pre & post & -> & Hpre & Hpost & Hmp3 & H1 & H2)] Hn2;
    [discriminate|].
  right. exists cmd, run, pre, (post ++ n2). rewrite <- app_assoc. simpl.
  refine (conj eq_refl (conj Hpre (conj (proj2 (Forall_app _ _ _) (conj Hpost Hn2))
            (conj Hmp3 (conj _ _))))).
  - intros Ht. destruct (H1 Ht) as [_ Habs]. discriminate.
  - intros Ht Hc. destruct (H2 Ht Hc) as [_ Habs]. discriminate.
Qed.

Lemma stage_err_cast {X Y} (n : list event) (e : exc) :
  @stage_spec X n (inl e) -> @stage_spec Y n (inl e).
Proof.
  intros [[Hn _] | (cmd & run & pre & post & -> & Hpre & Hpost & Hmp3 & H1 & H2)].
  - left. eauto.
  - right. exists cmd, run, pre, post.
    refine (conj eq_refl (conj Hpre (conj Hpost (conj Hmp3 (conj _ _))))).
    + intros Ht. destruct (H1 Ht) as [Hp He]. injection He as ->. auto.
    + intros Ht Hc. destruct (H2 Ht Hc) as [Hp He]. injection He as ->. auto.
Qed.

Lemma process_spec (tool : tool_fn) (p : processor) (start : Z) (ip : string) (f m : pyval) :
  triple (process tool p start ip f m) stage_spec.
Proof.
  unfold process.
  eapply triple_bind; [apply remove_vocals_spec | intros n1 e; apply stage_err_cast |].
  intros n1 op H1.
  assert (Hk : events_in (fun e => is_run e = false)
     (result_data <- encode_audio_file op ;;
      t <- datetime_now ;;
      root <- lift (py_splitext_root f) ;;
      ts <- datetime_now ;;
      cleanup_files [ip; Path.dirname op] ;;;
      ret [("success", PBool true); ("processed_audio", PStr result_data);
           ("processing_time", PFloat (t - start)); ("method", m);
           ("gpu_used", PStr (device p));
           ("output_filename", PStr (root ++ "_no_vocals.wav"));
           ("timestamp", PStr (Clock.isoformat ts)); ("serverless", PBool true)])).
  { evs; eapply events_in_weaken;
      try apply encode_quiet; try apply cleanup_files_quiet; intros e [He _]; exact He. }
  eapply triple_weaken; [exact Hk|]. intros n2 r Hn2. eapply stage_extend_ok; eauto.
Qed.


Lemma try_ret_quiet {A} (c : M A) :
  events_in quiet c -> triple (r <- try_ c ;; ret tt) (fun n r => Forall quiet n /\ r = inr tt).
Proof.
  intros Hc. eapply triple_bind; [apply triple_try, Hc | |].
  - intros n1 e [r' [H _]]. discriminate.
  - intros n1 x [r' [_ Hq]]. apply triple_ret. rewrite app_nil_r. auto.
Qed.

Lemma failure_response_spec (start : Z) (ip : option string) (e : exc) :
  triple (failure_response start ip e) (fun n r => Forall quiet n /\ failure_with r (exc_str e)).
Proof.
  unfold failure_response.
  eapply triple_bind with (P1 := fun n r => Forall quiet n /\ r = inr tt).
  - destruct ip as [s|]; [destruct (String.eqb s "")|].
    + apply triple_ret. auto.
    + apply try_ret_quiet, remove_quiet.
    + apply triple_ret. auto.
  - intros n1 e' [_ H]. discriminate.
  - intros n1 x [Hq _].
    eapply triple_bind with (P1 := fun n (r : exc + Z) => n = [] /\ exists t, r = inr t);
      [apply triple_now; eauto | intros ? ? [_ [? Habs]]; discriminate |].
    intros n2 t [-> _].
    eapply triple_bind with (P1 := fun n (r : exc + Z) => n = [] /\ exists t, r = inr t);
      [apply triple_now; eauto | intros ? ? [_ [? Habs]]; discriminate |].
    intros n3 ts [-> _]. apply triple_ret. rewrite !app_nil_r. split; [exact Hq|].
    eexists. split; [reflexivity|]. split; [reflexivity|]. split; reflexivity.
Qed.


Lemma quiet_no_run (l : list event) : Forall quiet l -> Forall (fun e => is_run e = false) l.
Proof. intros H. eapply Forall_impl; [|exact H]. intros e [He _]. exact He. Qed.

Lemma quiet_no_glob (l : list event) : Forall quiet l -> Forall (fun e => is_glob e = false) l.
Proof. intros H. eapply Forall_impl; [|exact H]. intros e [_ He]. exact He. Qed.

Lemma stage_to_handler_err (n3 n4 : list event) (e : exc) (r : exc + response) :
  @stage_spec response n3 (inl e) -> Forall quiet n4 -> failure_with r (exc_str e) ->
  handler_spec (n3 ++ n4) r.
Proof.
  intros [[Hn _] | (cmd & run & pre & post & -> & Hpre & Hpost & Hmp3 & H1 & H2)] Hq Hf.
  - left. split; [apply Forall_app; auto | exact I].
  - right. exists cmd, run, pre, (post ++ n4). rewrite <- app_assoc. simpl.
    refine (conj eq_refl (conj Hpre (conj (proj2 (Forall_app _ _ _) (conj Hpost (quiet_no_run _ Hq)))
              (conj Hmp3 (conj _ _))))).
    + intros Ht. destruct (H1 Ht) as [-> He]. injection He as ->. simpl.
      split; [apply quiet_no_glob, Hq | exact Hf].
    + intros Ht Hc. destruct (H2 Ht Hc) as [-> He]. injection He as ->. simpl.
      split; [apply quiet_no_glob, Hq | exact Hf].
Qed.

Lemma stage_to_handler_ok (n3 : list event) (resp : response) :
  @stage_spec response n3 (inr resp) -> handler_spec (n3 ++ []) (inr resp).
Proof.
  rewrite app_nil_r.
  intros [[_ [e He]] | (cmd & run & pre & post & -> & Hpre & Hpost & Hmp3 & H1 & H2)];
    [discriminate|].
  right. exists cmd, run, pre, post.
  refine (conj eq_refl (conj Hpre (conj Hpost (conj Hmp3 (conj _ _))))).
  - intros Ht. destruct (H1 Ht) as [_ He]. discriminate.
  - intros Ht Hc. destruct (H2 Ht Hc) as [_ He]. discriminate.
Qed.

Lemma handler_spec_quiet (n : list event) (r : exc + response) :
  Forall quiet n -> handler_spec n r.
Proof. intros H. left. split; [exact H | exact I]. Qed.

Lemma handler_spec_holds (tool : tool_fn) (p : processor) (job : pyval) :
  triple (handler tool p job) handler_spec.
Proof.
  unfold handler.
  apply triple_quiet_seq;
    [intros; apply one_run_prefix; auto | intros; apply handler_spec_quiet; auto | evs | intros start].
  eapply triple_bind; [apply triple_try, extract_quiet | intros ? ? [? [Habs _]]; discriminate |].
  intros n1 x [x' [Hx Hq1]]. injection Hx as <-.
  destruct x as [e | [[[a f] m] |]].
  - eapply triple_weaken; [apply failure_response_spec|]. intros n2 r [Hq2 _].
    apply handler_spec_quiet, Forall_app. auto.
  - eapply triple_bind; [apply triple_try, decode_quiet | intros ? ? [? [Habs _]]; discriminate |].
    intros n2 y [y' [Hy Hq2]]. injection Hy as <-.
    destruct y as [e | ip].
    + eapply triple_weaken; [apply failure_response_spec|]. intros n3 r [Hq3 _].
      apply handler_spec_quiet. repeat (apply Forall_app; split); auto.
    + eapply triple_bind; [apply triple_try, process_spec | intros ? ? [? [Habs _]]; discriminate |].
      intros n3 z [z' [Hz Hs3]]. injection Hz as <-.
      apply (triple_weaken _ (fun n4 r => handler_spec (n3 ++ n4) r));
        [| intros n4 r H; apply one_run_prefix; [exact Hq1|];
           apply one_run_prefix; [exact Hq2 | exact H]].
      destruct z as [e | resp].
      * eapply triple_weaken; [apply failure_response_spec|]. intros n4 r [Hq4 Hf].
        eapply stage_to_handler_err; eauto.
      * apply triple_ret. apply stage_to_handler_ok. exact Hs3.
  - apply triple_ret. apply handler_spec_quiet. rewrite app_nil_r. exact Hq1.
Qed.

End RunFacts.

Module ResultFacts.
Import Py FS Handler Spec.
Local Open Scope list_scope.

Lemma bind_inr {A B} (c : M A) (k : A -> M B) (w w' : world) (y : B) :
  bind c k w = (w', inr y) -> exists w1 x, c w = (w1, inr x) /\ k x w1 = (w', inr y).
Proof.
  unfold bind. destruct (c w) as [w1 [e | x]]; [discriminate|]. intros H. eauto.
Qed.

Lemma extract_input_spec (job : pyval) (w : world) :
  fst (extract_input job w) = w /\
  match snd (extract_input job w) with
  | inr None => missing_audio job = true
  | inr (Some (a, f, m)) => missing_audio job = false /\ f = job_filename job
  | inl _ => missing_audio job = false
  end.
Proof.
  unfold extract_input, py_get, missing_audio, job_filename, job_input_of, field, bind, ret, raise.
  destruct job as [| | | | | | d]; simpl; auto.
  destruct (assoc "input" d) as [ji|]; simpl.
  - destruct ji as [| | | | | | d0]; simpl; auto.
    destruct (truthy (match assoc "audio_data" d0 with Some x => x | None => PNone end)); simpl; auto.
  - auto.
Qed.

Lemma process_success (tool : tool_fn) (p : processor) (start : Z) (ip : string)
    (f m : pyval) (w w' : world) (resp : response) :
  process tool p start ip f m w = (w', inr resp) ->
  keys resp = success_keys /\ assoc "success" resp = Some (PBool true) /\
  exists fn, f = PStr fn /\
    assoc "output_filename" resp = Some (PStr (fst (Path.splitext fn) ++ "_no_vocals.wav")).
Proof.
  unfold process. intros H.
  destruct (bind_inr _ _ _ _ _ H) as (w1 & op & _ & H1).
  destruct (bind_inr _ _ _ _ _ H1) as (w2 & rd & _ & H2).
  destruct (bind_inr _ _ _ _ _ H2) as (w3 & t & _ & H3).
  destruct (bind_inr _ _ _ _ _ H3) as (w4 & root & Hr & H4).
  destruct (bind_inr _ _ _ _ _ H4) as (w5 & ts & _ & H5).
  destruct (bind_inr _ _ _ _ _ H5) as (w6 & u & _ & H6).
  unfold lift in Hr. injection Hr as _ Hr.
  unfold ret in H6. injection H6 as _ <-.
  destruct f; try discriminate. simpl in Hr. injection Hr as <-.
  refine (conj eq_refl (conj eq_refl _)). eexists. split; reflexivity.
Qed.





Local Open Scope list_scope.

Lemma bind_step {A B} (c : M A) (k : A -> M B) (w w1 : world) (x : A) :
  c w = (w1, inr x) -> bind c k w = k x w1.
Proof. unfold bind. intros ->. reflexivity. Qed.

Lemma try_step {A} (c : M A) (w : world) : try_ c w = (fst (c w), inr (snd (c w))).
Proof. unfold try_. destruct (c w). reflexivity. Qed.

Lemma failure_response_result (start : Z) (ip : option string) (e : exc) (w : world) :
  failure_with (snd (failure_response start ip e w)) (exc_str e).
Proof.
  destruct (RunFacts.failure_response_spec start ip e w) as [n [_ [_ H]]]. exact H.
Qed.

Lemma handler_cases (tool : tool_fn) (p : processor) (job : pyval) (w : world) :
  (missing_audio job = true /\ handler tool p job w = (w, inr no_audio_response)) \/
  (missing_audio job = false /\
   ((exists resp, snd (handler tool p job w) = inr resp /\ success_response job resp) \/
    (exists msg, failure_with (snd (handler tool p job w)) msg))).
Proof.
  assert (Hx := extract_input_spec job w).
  unfold handler. cbn [bind datetime_now].
  rewrite (bind_step _ _ _ _ _ (try_step _ w)).
  destruct Hx as [-> Hr].
  destruct (snd (extract_input job w)) as [e | [[[a f] m] |]].
  - right. split; [exact Hr|]. right. eexists. apply failure_response_result.
  - destruct Hr as [Hm Hf]. right. split; [exact Hm|].
    rewrite (bind_step _ _ _ _ _ (try_step _ w)).
    destruct (snd (decode_audio_file p a f w)) as [e | ip].
    + right. eexists. apply failure_response_result.
    + rewrite (bind_step _ _ _ _ _ (try_step _ _)).
      destruct (process tool p (w_clock w) ip f m (fst (decode_audio_file p a f w)))
        as [w3 [e | resp]] eqn:E3; simpl.
      * right. eexists. apply failure_response_result.
      * left. exists resp. split; [reflexivity|].
        destruct (process_success _ _ _ _ _ _ _ _ _ E3) as (Hk & Hs & fn & -> & Ho).
        refine (conj Hk (conj Hs _)). exists fn. rewrite <- Hf. auto.
  - left. split; [exact Hr | reflexivity].
Qed.

End ResultFacts.

Module FileFacts.
Import Py FS Handler Spec ResultFacts.
Local Open Scope list_scope.

Lemma assoc_app_new {A} (k : string) (t : list (string * A)) (e : A) :
  assoc k t = None -> assoc k (t ++ [(k, e)]) = Some e.
Proof.
  induction t as [|[k' v] r IH]; simpl.
  - rewrite String.eqb_refl. reflexivity.
  - destruct (String.eqb k k'); [discriminate | exact IH].
Qed.

Lemma assoc_map_replace {A} (k : string) (t : list (string * A)) (e v : A) :
  assoc k t = Some v ->
  assoc k (map (fun kv => if String.eqb (fst kv) k then (k, e) else kv) t) = Some e.
Proof.
  induction t as [|[k' v'] r IH]; simpl; [discriminate|].
  destruct (String.eqb k k') eqn:E.
  - apply String.eqb_eq in E. subst k'. rewrite String.eqb_refl. simpl.
    rewrite String.eqb_refl. reflexivity.
  - rewrite String.eqb_sym, E. simpl. rewrite E. exact IH.
Qed.

Lemma lookup_put (t : fs) (p : string) (e : entry) : lookup (put t p e) p = Some e.
Proof.
  unfold put, lexists, lookup.
  destruct (assoc (Path.norm p) t) as [v|] eqn:E.
  - eapply assoc_map_replace; exact E.
  - apply assoc_app_new, E.
Qed.

Lemma write_file_ok (p : string) (d : list byte) (w w' : world) (u : unit) :
  write_file p d w = (w', inr u) -> w_fs w' = put (w_fs w) p (EFile d).
Proof.
  unfold write_file, get_fs, bind, raise, set_fs, emit.
  destruct (lookup (w_fs w) p) as [[dd|]|];
    [| discriminate |];
    (destruct (lookup (w_fs w) (Path.dirname (Path.norm p))) as [[dd'|]|];
     [discriminate | intros H; injection H as <- _; reflexivity | discriminate]).
Qed.

Lemma get_in (s : string) (i : nat) (c : ascii) :
  String.get i s = Some c -> In c (list_ascii_of_string s).
Proof.
  revert i. induction s as [|a r IH]; intros i H; [destruct i; discriminate|].
  destruct i as [|i]; simpl in H.
  - injection H as <-. left. reflexivity.
  - right. exact (IH i H).
Qed.

Lemma table_b2a_ascii (n : Z) : (nat_of_ascii (B64.table_b2a n) <? 128)%nat = true.
Proof.
  unfold B64.table_b2a.
  destruct (String.get (Z.to_nat n) B64.alphabet) as [c|] eqn:E; [|reflexivity].
  apply get_in in E. revert c E. apply forallb_forall. vm_compute. reflexivity.
Qed.

Lemma b2a_ascii (bs : list byte) (c : ascii) :
  In c (B64.b2a_base64 bs) -> (nat_of_ascii c <? 128)%nat = true.
Proof.
  revert c. induction bs as [bs IH] using
    (well_founded_induction (Wf_nat.well_founded_ltof _ (@List.length byte))).
  destruct bs as [|b0 [|b1 [|b2 rest]]].
  - simpl. tauto.
  - simpl. intros c H. repeat destruct H as [<- | H]; try apply table_b2a_ascii;
      try reflexivity; contradiction.
  - simpl. intros c H. repeat destruct H as [<- | H]; try apply table_b2a_ascii;
      try reflexivity; contradiction.
  - simpl. intros c H. repeat destruct H as [<- | H]; try apply table_b2a_ascii.
    apply (IH rest); [unfold Wf_nat.ltof; simpl; lia | exact H].
Qed.

Lemma b64decode_encode (bs : list byte) : b64decode (PStr (B64.b64encode bs)) = inr bs.
Proof.
  unfold b64decode, B64.b64encode. rewrite list_ascii_of_string_of_list_ascii.
  rewrite B64Facts.a2b_b2a_base64.
  destruct (forallb _ _) eqn:E; [reflexivity|].
  exfalso. revert E. apply Bool.not_false_iff_true. apply forallb_forall.
  intros c Hc. apply b2a_ascii with bs. exact Hc.
Qed.

End FileFacts.

Module StageFacts.
Import Py FS Handler Spec ResultFacts FileFacts.
Local Open Scope list_scope.

Lemma only_run (pre post : list event) (c c0 : list string) (t t0 : Z) (r r0 : tool_run) :
  Forall (fun e => is_run e = false) pre -> Forall (fun e => is_run e = false) post ->
  In (EvRun c t r) (pre ++ EvRun c0 t0 r0 :: post) -> c = c0 /\ t = t0 /\ r = r0.
Proof.
  intros Hpre Hpost H. apply in_app_or in H. destruct H as [H | [H | H]].
  - rewrite Forall_forall in Hpre. discriminate (Hpre _ H).
  - injection H as -> -> ->. auto.
  - rewrite Forall_forall in Hpost. discriminate (Hpost _ H).
Qed.

Lemma no_run_in (n : list event) (c : list string) (t : Z) (r : tool_run) :
  Forall quiet n -> ~ In (EvRun c t r) n.
Proof.
  intros Hq H. rewrite Forall_forall in Hq. destruct (Hq _ H) as [Hr _]. discriminate.
Qed.

Lemma contains_app_r (needle a b : string) :
  Str.contains needle b = true -> Str.contains needle (a ++ b)%string = true.
Proof.
  induction a as [|x a IH]; simpl; auto. intros H. rewrite (IH H). apply Bool.orb_true_r.
Qed.

Lemma timeout_message (cmd : list string) :
  exc_str (TimeoutExpired cmd demucs_timeout) =
  ("Command '" ++ repr_str_list cmd ++ "' timed out after 300 seconds")%string.
Proof. reflexivity. Qed.

Lemma timeout_message_says_timed_out (cmd : list string) :
  Str.contains "timed out" (exc_str (TimeoutExpired cmd demucs_timeout)) = true.
Proof.
  rewrite timeout_message. apply contains_app_r, contains_app_r. reflexivity.
Qed.

Lemma decode_spec (p : processor) (a f : pyval) (w : world) :
  match decode_audio_file p a f w with
  | (w', inr path) =>
      exists bs, b64decode a = inr bs /\ path = input_file_path p (w_clock w) f /\
        w_fs w' = put (w_fs w) path (EFile bs)
  | (w', inl e) =>
      (b64decode a = inl e /\ w' = w) \/
      (exists bs, b64decode a = inr bs /\
         write_file (input_file_path p (w_clock w) f) bs w = (w', inl e))
  end.
Proof.
  unfold decode_audio_file. cbn [bind datetime_now lift].
  destruct (b64decode a) as [e | bs] eqn:E; simpl; [left; auto|].
  unfold bind at 1.
  destruct (write_file (input_file_path p (w_clock w) f) bs w) as [w1 [e | u]] eqn:W.
  - right. eauto.
  - unfold ret. exists bs. split; [reflexivity|]. split; [reflexivity|].
    exact (write_file_ok _ _ _ _ _ W).
Qed.

Lemma encode_file (path : string) (w : world) (d : list byte) :
  lookup (w_fs w) path = Some (EFile d) ->
  snd (encode_audio_file path w) = inr (B64.b64encode d).
Proof.
  intros H. unfold encode_audio_file, read_file, get_fs, bind, emit, ret. simpl.
  rewrite H. reflexivity.
Qed.

Lemma find_output_eq (od m ip : string) (w : world) :
  find_output od m ip w =
  (World (w_fs w) (w_clock w)
     (w_log w ++ EvGlob (primary_pattern od m ip) false ::
        match Glob.glob (w_fs w) (primary_pattern od m ip) false with
        | [] => [EvGlob (fallback_pattern od) true]
        | _ => []
        end),
   match Glob.glob (w_fs w) (primary_pattern od m ip) false with
   | x :: _ => inr x
   | [] => match Glob.glob (w_fs w) (fallback_pattern od) true with
           | x :: _ => inr x
           | [] => inl (RuntimeError "Could not find Demucs output file")
           end
   end).
Proof.
  unfold find_output, glob_, get_fs, emit, bind, ret, raise. simpl.
  destruct (Glob.glob (w_fs w) (primary_pattern od m ip) false) as [|x r]; simpl.
  - rewrite <- app_assoc. simpl.
    destruct (Glob.glob (w_fs w) (fallback_pattern od) true); reflexivity.
  - reflexivity.
Qed.

Lemma remove_vocals_after_run (tool : tool_fn) (p : processor) (ip m : string)
    (w w1 w2 : world) (run : tool_run) :
  makedirs (output_dir_path p (w_clock w)) w = (w1, inr tt) ->
  subprocess_run tool (demucs_command p m (output_dir_path p (w_clock w)) ip) demucs_timeout w1
    = (w2, inr run) ->
  t_returncode run = 0 ->
  remove_vocals_serverless tool p ip (PStr m) w = find_output (output_dir_path p (w_clock w)) m ip w2.
Proof.
  intros Hmk Hrun Hc. unfold remove_vocals_serverless. cbn [bind datetime_now].
  rewrite (bind_step _ _ _ _ _ Hmk).
  rewrite (bind_step _ _ _ _ _ (eq_refl : lift (model_as_str (PStr m)) w1 = (w1, inr m))).
  rewrite (bind_step _ _ _ _ _ Hrun). rewrite Hc. reflexivity.
Qed.

End StageFacts.

(* ================================================================== *)
(** * The claims *)

Module Claims.
Import Py FS Handler Spec Scenario ResultFacts FileFacts StageFacts.
Local Open Scope list_scope.

(** ** C1 *)

(** C1: [handler] never raises: for every job, tool, processor and world
    it returns a response.  But a job without [audio_data] (such as
    [{"input": {}}]) gets the early return [{"error": ...}], which has no
    [success] key at all. *)
Theorem C1_handler_total_no_audio_without_success :
  (forall tool p job w, exists resp, snd (handler tool p job w) = inr resp) /\
  (forall tool p w, handler tool p job_no_audio w = (w, inr no_audio_response) /\
                    assoc "success" no_audio_response = None).
Proof.
  split.
  - intros tool p job w.
    destruct (handler_cases tool p job w) as [[_ ->] | [_ [[resp [H _]] | [msg [resp [H _]]]]]];
      [eexists; reflexivity | eexists; exact H | eexists; exact H].
  - intros tool p w. split; [|reflexivity].
    destruct (handler_cases tool p job_no_audio w) as [[_ H] | [Hm _]];
      [exact H | discriminate].
Qed.

(** ** C2 *)

(** C2: the Demucs output directory created during a call survives it.
    From the fresh container [w0], the directory
    [/tmp/vocal_removal/demucs_output_20261014_174640] does not exist;
    after a successful job it is still there (with its [htdemucs_ft]
    subdirectory), and also after a job whose tool exits non-zero and
    after one whose tool times out. *)
Theorem C2_output_dir_left_behind :
  let od := output_dir_path gpu (w_clock w0) in
  lexists (w_fs w0) od = false /\
  (exists resp, snd (handler stub_ok gpu job1 w0) = inr resp /\
                assoc "success" resp = Some (PBool true)) /\
  lexists (w_fs (fst (handler stub_ok gpu job1 w0))) od = true /\
  lexists (w_fs (fst (handler stub_ok gpu job1 w0))) (Path.join od "htdemucs_ft") = true /\
  lexists (w_fs (fst (handler stub_fail cpu job1 w0))) (output_dir_path cpu (w_clock w0)) = true /\
  lexists (w_fs (fst (handler stub_slow cpu job1 w0))) (output_dir_path cpu (w_clock w0)) = true.
Proof.
  vm_compute. refine (conj eq_refl (conj _ (conj eq_refl (conj eq_refl (conj eq_refl eq_refl))))).
  eexists. split; reflexivity.
Qed.

(** ** C3 *)

(** C3: a job whose input mapping has no truthy [audio_data] returns at
    once, with the world unchanged (nothing decoded, written or run, no
    event logged), and the response it gets is [no_audio_response],
    which has neither a [processing_time] nor a [timestamp]. *)
Theorem C3_no_audio_early_return (tool : tool_fn) (p : processor) (job : pyval) (w : world) :
  missing_audio job = true ->
  handler tool p job w = (w, inr no_audio_response) /\
  assoc "processing_time" no_audio_response = None /\
  assoc "timestamp" no_audio_response = None.
Proof.
  intros Hm. split; [|split; reflexivity].
  destruct (handler_cases tool p job w) as [[_ H] | [Hm' _]];
    [exact H | rewrite Hm in Hm'; discriminate].
Qed.

Lemma C3_no_audio_early_return_witness :
  missing_audio job_no_audio = true /\
  handler stub_ok gpu job_no_audio w0 = (w0, inr no_audio_response).
Proof.
  split; [reflexivity|].
  exact (proj1 (C3_no_audio_early_return stub_ok gpu job_no_audio w0 eq_refl)).
Defined.

(** ** C4 *)

(** C4 (counterexample): the failure of a tool that exits with status 1
    and prints [out text] on stdout and [err text] on stderr carries the
    stderr text only. *)
Lemma C4_stdout_not_reported :
  exists resp, snd (handler stub_fail cpu job1 w0) = inr resp /\
    assoc "error" resp = Some (PStr "Demucs processing failed: err text") /\
    Str.contains "out text" "Demucs processing failed: err text" = false.
Proof. vm_compute. eexists. split; [reflexivity | split; reflexivity]. Qed.

(** C4 (amended): when the tool's run has not timed out and exits with a
    non-zero status, the call performs no output search at all and its
    response is a failure whose error is
    ["Demucs processing failed: " ++ stderr]; stdout is not reported. *)
Theorem C4_failed_run_reports_stderr (tool : tool_fn) (p : processor) (job : pyval) (w : world) :
  exists new, w_log (fst (handler tool p job w)) = w_log w ++ new /\
  forall cmd to run, In (EvRun cmd to run) new ->
    timed_out run = false -> t_returncode run <> 0 ->
    Forall (fun e => is_glob e = false) new /\
    failure_with (snd (handler tool p job w)) ("Demucs processing failed: " ++ t_stderr run)%string.
Proof.
  destruct (RunFacts.handler_spec_holds tool p job w) as [new [Hlog Hs]].
  exists new. split; [exact Hlog|]. intros cmd to run Hin Ht Hc.
  destruct Hs as [[Hq _] | (cmd0 & run0 & pre & post & -> & Hpre & Hpost & _ & _ & Hf)].
  - exfalso. exact (no_run_in _ _ _ _ Hq Hin).
  - destruct (only_run _ _ _ _ _ _ _ _ (RunFacts.quiet_no_run _ Hpre) Hpost Hin)
      as (-> & -> & ->).
    destruct (Hf Ht Hc) as [Hg Hr]. split; [|exact Hr].
    apply Forall_app. split; [apply RunFacts.quiet_no_glob, Hpre|].
    constructor; [reflexivity | exact Hg].
Qed.

Lemma C4_failed_run_reports_stderr_witness :
  exists new, w_log (fst (handler stub_fail cpu job1 w0)) = w_log w0 ++ new /\
  forall cmd to run, In (EvRun cmd to run) new ->
    timed_out run = false -> t_returncode run <> 0 ->
    Forall (fun e => is_glob e = false) new /\
    failure_with (snd (handler stub_fail cpu job1 w0))
      ("Demucs processing failed: " ++ t_stderr run)%string.
Proof. exact (C4_failed_run_reports_stderr stub_fail cpu job1 w0). Defined.

(** ** C5 *)

(** C5: once the output directory is made and the tool's run returns
    with status 0, [remove_vocals_serverless] globs the primary pattern
    [<output_dir>/<model>/<input stem>/no_vocals.*]; exactly when that
    finds nothing it globs [<output_dir>/**/no_vocals.*] recursively;
    it returns the first match of the search that found one, and raises
    [RuntimeError "Could not find Demucs output file"] when neither did. *)
Theorem C5_artifact_search (tool : tool_fn) (p : processor) (ip m : string)
    (w w1 w2 : world) (run : tool_run) :
  makedirs (output_dir_path p (w_clock w)) w = (w1, inr tt) ->
  subprocess_run tool (demucs_command p m (output_dir_path p (w_clock w)) ip) demucs_timeout w1
    = (w2, inr run) ->
  t_returncode run = 0 ->
  let od := output_dir_path p (w_clock w) in
  let primary := Glob.glob (w_fs w2) (primary_pattern od m ip) false in
  let fallback := Glob.glob (w_fs w2) (fallback_pattern od) true in
  remove_vocals_serverless tool p ip (PStr m) w =
  (World (w_fs w2) (w_clock w2)
     (w_log w2 ++ EvGlob (primary_pattern od m ip) false ::
        match primary with [] => [EvGlob (fallback_pattern od) true] | _ => [] end),
   match primary with
   | x :: _ => inr x
   | [] => match fallback with
           | x :: _ => inr x
           | [] => inl (RuntimeError "Could not find Demucs output file")
           end
   end).
Proof.
  intros Hmk Hrun Hc. cbv zeta.
  rewrite (remove_vocals_after_run _ _ _ _ _ _ _ _ Hmk Hrun Hc). apply find_output_eq.
Qed.

Lemma C5_artifact_search_witness :
  snd (remove_vocals_serverless stub_ok gpu "/tmp/vocal_removal/input_20261014_174640_test.wav"
         (PStr "htdemucs_ft") w0) =
  inr "/tmp/vocal_removal/demucs_output_20261014_174640/htdemucs_ft/input_20261014_174640_test/no_vocals.mp3".
Proof.
  rewrite (C5_artifact_search stub_ok gpu "/tmp/vocal_removal/input_20261014_174640_test.wav"
             "htdemucs_ft" w0
             (fst (makedirs (output_dir_path gpu (w_clock w0)) w0))
             (fst (subprocess_run stub_ok
                     (demucs_command gpu "htdemucs_ft" (output_dir_path gpu (w_clock w0))
                        "/tmp/vocal_removal/input_20261014_174640_test.wav") demucs_timeout
                     (fst (makedirs (output_dir_path gpu (w_clock w0)) w0))))
             (stub_ok (demucs_command gpu "htdemucs_ft" (output_dir_path gpu (w_clock w0))
                        "/tmp/vocal_removal/input_20261014_174640_test.wav")
                      (w_fs (fst (makedirs (output_dir_path gpu (w_clock w0)) w0)))));
    vm_compute; reflexivity.
Defined.

(** ** C6 *)

(** C6: every tool run of a call has the bound [300] seconds and a call
    runs the tool at most once (no retry); when the run exceeds the
    bound, no output search follows and the response is a failure whose
    error is [TimeoutExpired]'s message, which says "timed out". *)
Theorem C6_timeout_300_single_run (tool : tool_fn) (p : processor) (job : pyval) (w : world) :
  exists new, w_log (fst (handler tool p job w)) = w_log w ++ new /\
  forall cmd to run, In (EvRun cmd to run) new ->
    to = 300 /\
    (forall cmd' to' run', In (EvRun cmd' to' run') new -> cmd' = cmd /\ to' = to /\ run' = run) /\
    (timed_out run = true ->
       Forall (fun e => is_glob e = false) new /\
       failure_with (snd (handler tool p job w)) (exc_str (TimeoutExpired cmd 300)) /\
       Str.contains "timed out" (exc_str (TimeoutExpired cmd 300)) = true).
Proof.
  destruct (RunFacts.handler_spec_holds tool p job w) as [new [Hlog Hs]].
  exists new. split; [exact Hlog|]. intros cmd to run Hin.
  destruct Hs as [[Hq _] | (cmd0 & run0 & pre & post & -> & Hpre & Hpost & _ & Hf & _)].
  - exfalso. exact (no_run_in _ _ _ _ Hq Hin).
  - assert (Hnr := RunFacts.quiet_no_run _ Hpre).
    destruct (only_run _ _ _ _ _ _ _ _ Hnr Hpost Hin) as (-> & -> & ->).
    split; [reflexivity|]. split.
    + intros cmd' to' run' Hin'. exact (only_run _ _ _ _ _ _ _ _ Hnr Hpost Hin').
    + intros Ht. destruct (Hf Ht) as [Hg Hr].
      split; [| split; [exact Hr | apply timeout_message_says_timed_out]].
      apply Forall_app. split; [apply RunFacts.quiet_no_glob, Hpre|].
      constructor; [reflexivity | exact Hg].
Qed.

Lemma C6_timeout_300_single_run_witness :
  exists new, w_log (fst (handler stub_slow cpu job1 w0)) = w_log w0 ++ new /\
  forall cmd to run, In (EvRun cmd to run) new ->
    to = 300 /\
    (forall cmd' to' run', In (EvRun cmd' to' run') new -> cmd' = cmd /\ to' = to /\ run' = run) /\
    (timed_out run = true ->
       Forall (fun e => is_glob e = false) new /\
       failure_with (snd (handler stub_slow cpu job1 w0)) (exc_str (TimeoutExpired cmd 300)) /\
       Str.contains "timed out" (exc_str (TimeoutExpired cmd 300)) = true).
Proof. exact (C6_timeout_300_single_run stub_slow cpu job1 w0). Defined.

(** ** C7 *)

(** C7: for a canonical Base64 payload (the encoding of some non-empty
    bytes), when [decode_audio_file] succeeds, [encode_audio_file] on the
    path it returns, in the world it leaves, gives back the payload. *)
Theorem C7_decode_encode_roundtrip (p : processor) (s : string) (fn : pyval)
    (w w' : world) (path : string) :
  canonical_b64 s -> decode_audio_file p (PStr s) fn w = (w', inr path) ->
  snd (encode_audio_file path w') = inr s.
Proof.
  intros [bs0 [_ ->]] Hd.
  assert (Hs := decode_spec p (PStr (B64.b64encode bs0)) fn w). rewrite Hd in Hs.
  destruct Hs as (bs & Hb & _ & Hfs).
  rewrite b64decode_encode in Hb. injection Hb as <-.
  apply encode_file. rewrite Hfs. apply lookup_put.
Qed.

Lemma C7_decode_encode_roundtrip_witness :
  snd (encode_audio_file (input_file_path cpu (w_clock w0) (PStr "test.wav"))
         (fst (decode_audio_file cpu (PStr "QUJD") (PStr "test.wav") w0))) = inr "QUJD".
Proof.
  apply (C7_decode_encode_roundtrip cpu "QUJD" (PStr "test.wav") w0
           (fst (decode_audio_file cpu (PStr "QUJD") (PStr "test.wav") w0))
           (input_file_path cpu (w_clock w0) (PStr "test.wav"))).
  - exists [Byte.x41; Byte.x42; Byte.x43]. split; [discriminate | reflexivity].
  - vm_compute. reflexivity.
Defined.

(** ** C8 *)

(** C8 (counterexample): a successful job's response has the keys
    [success, processed_audio, processing_time, method, gpu_used,
    output_filename, timestamp, serverless], not the claimed ones with
    [profile_used] and [device_used]. *)
Lemma C8_response_keys_differ :
  exists resp, snd (handler stub_ok gpu job1 w0) = inr resp /\
    keys resp = ["success"; "processed_audio"; "processing_time"; "method"; "gpu_used";
                 "output_filename"; "timestamp"; "serverless"] /\
    keys resp <> ["success"; "processed_audio"; "processing_time"; "profile_used";
                  "device_used"; "output_filename"; "timestamp"].
Proof.
  vm_compute. eexists. split; [reflexivity|]. split; [reflexivity | discriminate].
Qed.

(** C8 (amended): apart from the missing-audio early return (the
    defect of C1 and C3), every job gets a response of exactly one of
    two shapes: the success shape ([success_keys], with [success] true)
    or the failure shape ([failure_keys]: success, error,
    processing_time, timestamp, serverless, with [success] false). *)
Theorem C8_two_response_shapes (tool : tool_fn) (p : processor) (job : pyval) (w : world) :
  missing_audio job = false ->
  exists resp, snd (handler tool p job w) = inr resp /\
    ((keys resp = success_keys /\ assoc "success" resp = Some (PBool true)) \/
     (keys resp = failure_keys /\ assoc "success" resp = Some (PBool false))).
Proof.
  intros Hm0.
  destruct (handler_cases tool p job w)
    as [[Hm _] | [_ [[resp [H (Hk & Hs & _)]] | [msg (resp & H & Hk & Hs & _)]]]].
  - rewrite Hm0 in Hm. discriminate.
  - exists resp. split; [exact H | left; auto].
  - exists resp. split; [exact H | right; auto].
Qed.

Lemma C8_two_response_shapes_witness :
  missing_audio job1 = false /\
  exists resp, snd (handler stub_fail cpu job1 w0) = inr resp /\
    ((keys resp = success_keys /\ assoc "success" resp = Some (PBool true)) \/
     (keys resp = failure_keys /\ assoc "success" resp = Some (PBool false))).
Proof. split; [reflexivity | apply C8_two_response_shapes; reflexivity]. Defined.

(** ** C9 *)

(** C9 (counterexample): the empty payload is not rejected: decoding
    [""] (and likewise the garbage [!!!!], whose characters the
    non-validating decoder skips) succeeds and writes an empty file. *)
Lemma C9_empty_payload_accepted :
  decode_audio_file cpu (PStr "") (PStr "song.wav") w0 =
    (World [("/tmp", EDir); ("/tmp/vocal_removal", EDir);
            ("/tmp/vocal_removal/input_20261014_174640_song.wav", EFile [])]
           (w_clock w0) [EvWrite "/tmp/vocal_removal/input_20261014_174640_song.wav"],
     inr "/tmp/vocal_removal/input_20261014_174640_song.wav") /\
  snd (decode_audio_file cpu (PStr "!!!!") (PStr "song.wav") w0) =
    inr "/tmp/vocal_removal/input_20261014_174640_song.wav".
Proof. split; vm_compute; reflexivity. Qed.

(** C9 (amended): [decode_audio_file] fails exactly when
    [base64.b64decode] does (a non-string payload, non-ASCII text, bad
    padding or a stray trailing character), leaving the world unchanged,
    or when writing the file fails; it does not check for emptiness.
    On success it returns the path [input_file_path p now filename],
    fixed by the clock and the filename, and the file there holds the
    decoded bytes. *)
Theorem C9_decode_characterised (p : processor) (a f : pyval) (w : world) :
  match decode_audio_file p a f w with
  | (w', inr path) =>
      exists bs, b64decode a = inr bs /\ path = input_file_path p (w_clock w) f /\
        lookup (w_fs w') path = Some (EFile bs)
  | (w', inl e) =>
      (b64decode a = inl e /\ w' = w) \/
      (exists bs, b64decode a = inr bs /\
         write_file (input_file_path p (w_clock w) f) bs w = (w', inl e))
  end.
Proof.
  assert (H := decode_spec p a f w).
  destruct (decode_audio_file p a f w) as [w' [e | path]]; [exact H|].
  destruct H as (bs & Hb & Hp & Hfs). exists bs. split; [exact Hb|]. split; [exact Hp|].
  rewrite Hfs. apply lookup_put.
Qed.

(** ** C10 *)

(** C10: the [output_filename] of a success response is the stem of the
    job's [filename] followed by [_no_vocals.wav], whatever file the
    tool produced; and the tool is always asked for mp3 output. *)
Theorem C10_output_filename_from_request (tool : tool_fn) (p : processor) (job : pyval)
    (w : world) (resp : response) :
  snd (handler tool p job w) = inr resp -> assoc "success" resp = Some (PBool true) ->
  (exists fn, job_filename job = PStr fn /\
     assoc "output_filename" resp = Some (PStr (fst (Path.splitext fn) ++ "_no_vocals.wav")%string)) /\
  (forall m od ip, In "--mp3" (demucs_command p m od ip)).
Proof.
  intros H Hs. split; [| intros; apply RunFacts.mp3_in_command].
  destruct (handler_cases tool p job w)
    as [[_ E] | [_ [[resp' [H' (_ & _ & Ho)]] | [msg (resp' & H' & _ & Hs' & _)]]]].
  - rewrite E in H. injection H as <-. discriminate.
  - rewrite H in H'. injection H' as <-. exact Ho.
  - rewrite H in H'. injection H' as <-. rewrite Hs in Hs'. discriminate.
Qed.

Lemma C10_output_filename_from_request_witness :
  snd (handler stub_ok gpu job1 w0) = inr [("success", PBool true);
    ("processed_audio", PStr "QUI="); ("processing_time", PFloat 2000000);
    ("method", PStr "htdemucs_ft"); ("gpu_used", PStr "cuda");
    ("output_filename", PStr "test_no_vocals.wav");
    ("timestamp", PStr "2026-10-14T17:46:42"); ("serverless", PBool true)] /\
  exists fn, job_filename job1 = PStr fn /\
    assoc "output_filename" [("success", PBool true);
    ("processed_audio", PStr "QUI="); ("processing_time", PFloat 2000000);
    ("method", PStr "htdemucs_ft"); ("gpu_used", PStr "cuda");
    ("output_filename", PStr "test_no_vocals.wav");
    ("timestamp", PStr "2026-10-14T17:46:42"); ("serverless", PBool true)]
    = Some (PStr (fst (Path.splitext fn) ++ "_no_vocals.wav")%string).
Proof.
  assert (H : snd (handler stub_ok gpu job1 w0) = inr [("success", PBool true);
    ("processed_audio", PStr "QUI="); ("processing_time", PFloat 2000000);
    ("method", PStr "htdemucs_ft"); ("gpu_used", PStr "cuda");
    ("output_filename", PStr "test_no_vocals.wav");
    ("timestamp", PStr "2026-10-14T17:46:42"); ("serverless", PBool true)])
    by (vm_compute; reflexivity).
  split; [exact H|].
  exact (proj1 (C10_output_filename_from_request stub_ok gpu job1 w0 _ H eq_refl)).
Defined.

End Claims.

(* ================================================================== *)
(** * Further properties of the handler's code *)

Module StrFacts.
Import Py FS Handler Spec.
Local Open Scope nat_scope.

Lemma append_empty (s : string) : (s ++ "")%string = s.
Proof. induction s as [|a s IH]; simpl; [reflexivity | rewrite IH; reflexivity]. Qed.

Lemma substring_full (s : string) : substring 0 (String.length s) s = s.
Proof. induction s as [|a s IH]; simpl; [reflexivity | rewrite IH; reflexivity]. Qed.

Lemma slice_concat (n : nat) (s : string) : (Str.slice_to n s ++ Str.slice_from n s)%string = s.
Proof.
  unfold Str.slice_to, Str.slice_from. revert n.
  induction s as [|a s IH]; intros n.
  - destruct n; reflexivity.
  - destruct n as [|n].
    + simpl. rewrite substring_full. reflexivity.
    + simpl. f_equal. apply IH.
Qed.

Lemma rfind_aux_spec (c : ascii) (s : string) (i k : nat) (best : option nat) :
  Str.rfind_aux c s i best = Some k ->
  best = Some k \/ (i <= k /\ String.get (k - i) s = Some c).
Proof.
  revert i best. induction s as [|x r IH]; intros i best H; simpl in H; [left; exact H|].
  destruct (IH _ _ H) as [Hb | [Hle Hg]].
  - destruct (Ascii.eqb x c) eqn:E; [|left; exact Hb].
    injection Hb as <-. apply Ascii.eqb_eq in E. subst x. right.
    rewrite Nat.sub_diag. split; reflexivity.
  - right. split; [lia|]. replace (k - i) with (S (k - S i)) by lia. exact Hg.
Qed.

Lemma rfind_get (c : ascii) (s : string) (k : nat) :
  Str.rfind c s = Some k -> String.get k s = Some c.
Proof.
  unfold Str.rfind. intros H. destruct (rfind_aux_spec _ _ _ _ _ H) as [H1 | [_ H2]];
    [discriminate | rewrite Nat.sub_0_r in H2; exact H2].
Qed.

Lemma get_lt (s : string) (k : nat) (c : ascii) :
  String.get k s = Some c -> (k < String.length s)%nat.
Proof.
  revert k. induction s as [|a r IH]; intros k H; [destruct k; discriminate|].
  destruct k; simpl; [lia|]. simpl in H. specialize (IH _ H). lia.
Qed.

Lemma substring_get (s : string) (k m : nat) (c : ascii) :
  String.get k s = Some c -> substring k (S m) s = String c (substring (S k) m s).
Proof.
  revert k. induction s as [|a r IH]; intros k H; [destruct k; discriminate|].
  destruct k as [|k]; simpl in H |- *.
  - injection H as ->. destruct r; reflexivity.
  - rewrite (IH _ H). destruct k; reflexivity.
Qed.

Lemma slice_from_get (s : string) (k : nat) (c : ascii) :
  String.get k s = Some c -> exists r, Str.slice_from k s = String c r.
Proof.
  intros H. unfold Str.slice_from. assert (Hl := get_lt _ _ _ H).
  replace (String.length s - k)%nat with (S (String.length s - k - 1)) by lia.
  rewrite (substring_get _ _ _ _ H). eauto.
Qed.

Lemma length_string_of_list_ascii (l : list ascii) :
  String.length (string_of_list_ascii l) = List.length l.
Proof. induction l as [|a l IH]; simpl; [reflexivity | rewrite IH; reflexivity]. Qed.

Lemma list_ascii_of_string_append (s1 s2 : string) :
  list_ascii_of_string (s1 ++ s2) = (list_ascii_of_string s1 ++ list_ascii_of_string s2)%list.
Proof. induction s1 as [|a s IH]; simpl; [reflexivity | rewrite IH; reflexivity]. Qed.

End StrFacts.

Module CodecFacts.
Import B64 StrFacts.
Local Open Scope list_scope.

Lemma b2a_length (bs : list byte) :
  List.length (b2a_base64 bs) = (4 * ((List.length bs + 2) / 3))%nat.
Proof.
  induction bs as [bs IH] using
    (well_founded_induction (Wf_nat.well_founded_ltof _ (@List.length byte))).
  destruct bs as [|b0 [|b1 [|b2 rest]]]; try reflexivity.
  cbn [b2a_base64 List.length].
  rewrite (IH rest) by (unfold Wf_nat.ltof; simpl; lia).
  replace (S (S (S (List.length rest))) + 2)%nat with (1 * 3 + (List.length rest + 2))%nat by lia.
  rewrite Nat.div_add_l by lia. lia.
Qed.

Lemma a2b_loop_skip (s : dstate) (l1 l2 : list ascii) (c : ascii) :
  Ascii.eqb c pad = false -> table_a2b c = None ->
  a2b_loop s (l1 ++ c :: l2) = a2b_loop s (l1 ++ l2).
Proof.
  intros Hp Ht. revert s. induction l1 as [|x r IH]; intros s; simpl.
  - rewrite Hp, Ht. reflexivity.
  - destruct (Ascii.eqb x pad).
    + destruct (_ && _); [reflexivity | apply IH].
    + destruct (table_a2b x); apply IH.
Qed.

End CodecFacts.


Module FsFacts.
Import Py FS Handler Spec ResultFacts FileFacts StageFacts StrFacts.
Local Open Scope list_scope.

Lemma bind_err {A B} (c : M A) (k : A -> M B) (w w1 : world) (e : exc) :
  c w = (w1, inl e) -> bind c k w = (w1, inl e).
Proof. unfold bind. intros ->. reflexivity. Qed.

Lemma mkdir_ok (p : string) (w w' : world) (u : unit) :
  mkdir p w = (w', inr u) -> w_fs w' = put (w_fs w) p EDir.
Proof.
  unfold mkdir, get_fs, bind, raise, set_fs, emit.
  destruct (lexists (w_fs w) p); [discriminate|].
  destruct (lookup (w_fs w) (Path.dirname (Path.norm p))) as [[d|]|];
    [discriminate | intros H; injection H as <- _; reflexivity | discriminate].
Qed.

Lemma isdir_put_dir (t : fs) (p : string) : isdir (put t p EDir) p = true.
Proof. unfold isdir. rewrite lookup_put. reflexivity. Qed.

Lemma In_del (kv : string * entry) (t : fs) (p : string) :
  In kv (del t p) <-> In kv t /\ fst kv <> Path.norm p.
Proof.
  unfold del. rewrite filter_In. rewrite Bool.negb_true_iff, String.eqb_neq. tauto.
Qed.

Lemma In_del_tree (kv : string * entry) (t : fs) (p : string) :
  In kv (del_tree t p) <->
  In kv t /\ fst kv <> Path.norm p /\ Str.starts_with (Path.norm p ++ "/") (fst kv) = false.
Proof.
  unfold del_tree. rewrite filter_In, Bool.negb_true_iff, Bool.orb_false_iff, String.eqb_neq.
  tauto.
Qed.

Lemma assoc_none {A} (k : string) (t : list (string * A)) :
  assoc k t = None <-> forall v, ~ In (k, v) t.
Proof.
  induction t as [|[k' v'] r IH]; simpl.
  - split; auto.
  - destruct (String.eqb k k') eqn:E.
    + apply String.eqb_eq in E. subst k'. split; [discriminate|].
      intros H. exfalso. exact (H v' (or_introl eq_refl)).
    + apply String.eqb_neq in E. rewrite IH. split.
      * intros H v [Hv | Hv]; [injection Hv as -> _; auto | exact (H v Hv)].
      * intros H v Hv. exact (H v (or_intror Hv)).
Qed.

Lemma lookup_sub (t t' : fs) (p : string) :
  (forall kv, In kv t' -> In kv t) -> lookup t p = None -> lookup t' p = None.
Proof.
  unfold lookup. rewrite !assoc_none. intros Hs H v Hv. exact (H v (Hs _ Hv)).
Qed.

Lemma lookup_del (t : fs) (p : string) : lookup (del t p) p = None.
Proof.
  unfold lookup. apply assoc_none. intros v Hv. apply In_del in Hv. destruct Hv as [_ Hv].
  apply Hv. reflexivity.
Qed.

Lemma lookup_del_tree (t : fs) (p : string) : lookup (del_tree t p) p = None.
Proof.
  unfold lookup. apply assoc_none. intros v Hv. apply In_del_tree in Hv.
  destruct Hv as [_ [Hv _]]. apply Hv. reflexivity.
Qed.

Lemma cleanup_one_fs (f : string) (w : world) :
  snd (cleanup_one f w) = inr tt /\
  lookup (w_fs (fst (cleanup_one f w))) f = None /\
  (forall kv, In kv (w_fs (fst (cleanup_one f w))) -> In kv (w_fs w)) /\
  (forall kv, In kv (w_fs w) -> fst kv <> Path.norm f ->
     Str.starts_with (Path.norm f ++ "/") (fst kv) = false ->
     In kv (w_fs (fst (cleanup_one f w)))).
Proof.
  unfold cleanup_one, remove, rmtree, try_, bind, get_fs, ret, lexists, isfile, isdir,
    set_fs, emit, raise.
  destruct (lookup (w_fs w) f) as [[d|]|] eqn:E; simpl; rewrite ?E; simpl.
  - refine (conj eq_refl (conj (lookup_del _ _) (conj _ _))).
    + intros kv H. apply In_del in H. tauto.
    + intros kv H H1 _. apply In_del. auto.
  - refine (conj eq_refl (conj (lookup_del_tree _ _) (conj _ _))).
    + intros kv H. apply In_del_tree in H. tauto.
    + intros kv H H1 H2. apply In_del_tree. auto.
  - auto.
Qed.

Lemma cleanup_files_fs (l : list string) (w : world) :
  snd (cleanup_files l w) = inr tt /\
  (forall f, In f l -> lookup (w_fs (fst (cleanup_files l w))) f = None) /\
  (forall kv, In kv (w_fs (fst (cleanup_files l w))) -> In kv (w_fs w)) /\
  (forall kv, In kv (w_fs w) ->
     (forall f, In f l -> fst kv <> Path.norm f /\
                          Str.starts_with (Path.norm f ++ "/") (fst kv) = false) ->
     In kv (w_fs (fst (cleanup_files l w)))).
Proof.
  revert w. induction l as [|f r IH]; intros w.
  - simpl. refine (conj eq_refl (conj _ (conj _ _))); auto. intros f [].
  - destruct (cleanup_one_fs f w) as (Hr & Hn & Hsub & Hkeep).
    simpl cleanup_files.
    destruct (cleanup_one f w) as [w1 r1] eqn:E. simpl in Hr, Hn, Hsub, Hkeep. subst r1.
    rewrite (bind_step _ _ _ _ _ E).
    destruct (IH w1) as (Hr' & Hn' & Hsub' & Hkeep').
    refine (conj Hr' (conj _ (conj _ _))).
    + intros g [<- | Hg]; [|exact (Hn' g Hg)].
      apply (lookup_sub (w_fs w1)); [exact Hsub' | exact Hn].
    + intros kv H. exact (Hsub _ (Hsub' _ H)).
    + intros kv H Hall. apply Hkeep'.
      * destruct (Hall f (or_introl eq_refl)) as [H1 H2]. exact (Hkeep _ H H1 H2).
      * intros g Hg. exact (Hall g (or_intror Hg)).
Qed.

Lemma append_eq_empty (a b : string) : (a ++ b)%string = "" -> b = "".
Proof. destruct a; simpl; [auto | discriminate]. Qed.

Lemma join_nonempty (a b : string) : b <> "" -> Path.join a b <> "".
Proof.
  intros Hb. unfold Path.join.
  destruct (Str.starts_with "/" b); [exact Hb|].
  destruct (_ || _).
  - intros H. exact (Hb (append_eq_empty _ _ H)).
  - destruct a; discriminate.
Qed.

Lemma input_file_path_nonempty (p : processor) (now : Z) (f : pyval) :
  input_file_path p now f <> "".
Proof. unfold input_file_path. apply join_nonempty. discriminate. Qed.

Lemma failure_response_removes (start : Z) (ip : string) (e : exc) (w : world) :
  ip <> "" -> isfile (w_fs (fst (failure_response start (Some ip) e w))) ip = false.
Proof.
  intros Hip. apply String.eqb_neq in Hip.
  unfold failure_response. rewrite Hip.
  unfold remove, try_, bind, get_fs, set_fs, emit, ret, raise, datetime_now.
  destruct (lookup (w_fs w) ip) as [[d|]|] eqn:E; simpl; unfold isfile;
    [rewrite lookup_del | rewrite E | rewrite E]; reflexivity.
Qed.

Lemma process_removes_input (tool : tool_fn) (p : processor) (start : Z) (ip : string)
    (f m : pyval) (w w' : world) (resp : response) :
  process tool p start ip f m w = (w', inr resp) -> lookup (w_fs w') ip = None.
Proof.
  unfold process. intros H.
  destruct (bind_inr _ _ _ _ _ H) as (w1 & op & _ & H1).
  destruct (bind_inr _ _ _ _ _ H1) as (w2 & rd & _ & H2).
  destruct (bind_inr _ _ _ _ _ H2) as (w3 & t & _ & H3).
  destruct (bind_inr _ _ _ _ _ H3) as (w4 & root & _ & H4).
  destruct (bind_inr _ _ _ _ _ H4) as (w5 & ts & _ & H5).
  destruct (bind_inr _ _ _ _ _ H5) as (w6 & u & H6 & H7).
  unfold ret in H7. injection H7 as <- _.
  destruct (cleanup_files_fs [ip; Path.dirname op] w5) as (_ & Hn & _).
  rewrite H6 in Hn. exact (Hn ip (or_introl eq_refl)).
Qed.

Lemma decode_path (p : processor) (a f : pyval) (w : world) (path : string) :
  snd (decode_audio_file p a f w) = inr path -> path = input_file_path p (w_clock w) f.
Proof.
  intros Hd. assert (S := decode_spec p a f w).
  destruct (decode_audio_file p a f w) as [wd [e|pth]]; simpl in Hd; [discriminate|].
  injection Hd as <-. destruct S as (bs & _ & Hp & _). exact Hp.
Qed.

Lemma encode_ok (path : string) (w w' : world) (s : string) :
  encode_audio_file path w = (w', inr s) ->
  exists bs, lookup (w_fs w) path = Some (EFile bs) /\ s = B64.b64encode bs.
Proof.
  unfold encode_audio_file, read_file, get_fs, bind, emit, ret, raise.
  destruct (lookup (w_fs w) path) as [[d|]|]; try discriminate.
  intros H. injection H as _ <-. eauto.
Qed.

Lemma extract_method (job : pyval) (w : world) (a f m : pyval) :
  snd (extract_input job w) = inr (Some (a, f, m)) ->
  m = field (job_input_of job) "method" (PStr "htdemucs_ft").
Proof.
  unfold extract_input, py_get, job_input_of, field, bind, ret, raise.
  destruct job as [| | | | | | d]; simpl; try discriminate.
  destruct (assoc "input" d) as [ji|]; simpl.
  - destruct ji as [| | | | | | d0]; simpl; try discriminate.
    destruct (truthy _); simpl; [intros H; injection H as _ _ <-; reflexivity | discriminate].
  - discriminate.
Qed.

Lemma day_eq (t : Z) : t / Clock.us_per_day = t / 1000000 / 86400.
Proof. unfold Clock.us_per_day. rewrite Z.div_div by lia. f_equal. Qed.

Lemma secs_eq (t : Z) : t mod Clock.us_per_day / 1000000 = t / 1000000 mod 86400.
Proof.
  unfold Clock.us_per_day. replace (86400 * 1000000) with (1000000 * 86400) by reflexivity.
  rewrite Z.rem_mul_r by lia.
  rewrite Z.add_comm, Z.mul_comm, Z.div_add_l by lia.
  rewrite (Z.div_small (t mod 1000000)) by (apply Z.mod_pos_bound; lia). lia.
Qed.

Lemma strftime_same_second (t1 t2 : Z) :
  t1 / 1000000 = t2 / 1000000 -> Clock.strftime_compact t1 = Clock.strftime_compact t2.
Proof.
  intros H. unfold Clock.strftime_compact, Clock.fields. cbv zeta.
  rewrite !day_eq, !secs_eq, H.
  destruct (Clock.civil_from_days (t2 / 1000000 / 86400)) as [[y mo] d]. reflexivity.
Qed.

End FsFacts.

Module DirFacts.
Import Py FS Handler Spec ResultFacts FileFacts StageFacts FsFacts.

Lemma makedirs_isdir (name : string) (w w' : world) :
  snd (Path.split name) <> "" -> snd (Path.split name) <> "." ->
  makedirs name w = (w', inr tt) -> isdir (w_fs w') name = true.
Proof.
  intros Hne Hdot. unfold makedirs. cbn [makedirs_aux].
  destruct (Path.split name) as [h tl] eqn:Es. simpl in Hne, Hdot.
  apply String.eqb_neq in Hne, Hdot. rewrite Hne.
  intros H.
  destruct (bind_inr _ _ _ _ _ H) as (w1 & t & Hg & H1). clear H.
  destruct (bind_inr _ _ _ _ _ H1) as (w2 & d & Hx & H2). clear H1.
  assert (Hd : d = false).
  { destruct (_ && _).
    - destruct (bind_inr _ _ _ _ _ Hx) as (w3 & u & _ & H3).
      unfold ret in H3. injection H3 as _ <-. exact Hdot.
    - unfold ret in Hx. injection Hx as _ <-. reflexivity. }
  subst d.
  rewrite (bind_step _ _ _ _ _ (try_step _ _)) in H2.
  destruct (mkdir name w2) as [w3 [e | u]] eqn:Em; simpl in H2.
  - unfold bind, get_fs, ret, raise in H2.
    destruct (isdir (w_fs w3) name) eqn:Ed; [injection H2 as <-; exact Ed | discriminate].
  - unfold ret in H2. injection H2 as <-. rewrite (mkdir_ok _ _ _ _ Em). apply isdir_put_dir.
Qed.

End DirFacts.

Module InitFacts.
Import Py FS Handler Spec ResultFacts FileFacts StageFacts FsFacts DirFacts.

Lemma makedirs_root_ok (w : world) :
  lookup (w_fs w) "/tmp" = Some EDir ->
  (forall d, lookup (w_fs w) "/tmp/vocal_removal" <> Some (EFile d)) ->
  exists w', makedirs "/tmp/vocal_removal" w = (w', inr tt).
Proof.
  intros Ht Hf. destruct w as [t c l]. simpl in Ht, Hf.
  unfold makedirs, makedirs_aux, mkdir, lexists, isdir, try_, bind, get_fs, ret, raise,
    set_fs, emit.
  cbv -[lookup put].
  rewrite Ht.
  destruct (lookup t "/tmp/vocal_removal") as [[d|]|] eqn:E.
  - exfalso. exact (Hf d eq_refl).
  - rewrite E. eauto.
  - rewrite Ht. eauto.
Qed.

End InitFacts.

Module MethodFacts.
Import Py FS Handler Spec Hoare RunFacts ResultFacts FsFacts.
Local Open Scope list_scope.

Lemma remove_vocals_nonstr (tool : tool_fn) (p : processor) (ip : string) (m : pyval) (w : world) :
  (forall s, m <> PStr s) ->
  exists w' e n, remove_vocals_serverless tool p ip m w = (w', inl e) /\
    w_log w' = w_log w ++ n /\ Forall quiet n /\
    (forall w2, makedirs (output_dir_path p (w_clock w)) w = (w2, inr tt) ->
       e = TypeError ("sequence item 6: expected str instance, " ++ type_name m ++ " found")).
Proof.
  intros Hm. unfold remove_vocals_serverless. cbn [bind datetime_now].
  destruct (makedirs_quiet (output_dir_path p (w_clock w)) w) as [n [Hl Hq]].
  destruct (makedirs (output_dir_path p (w_clock w)) w) as [w1 [e | []]] eqn:Em;
    cbn [fst snd] in Hl.
  - exists w1, e, n. rewrite (bind_err _ _ _ _ _ Em). split; [reflexivity|].
    split; [exact Hl|]. split; [exact Hq|]. intros w2 H. discriminate.
  - rewrite (bind_step _ _ _ _ _ Em). unfold lift, bind.
    destruct m; try (exfalso; eapply Hm; reflexivity);
      cbn [model_as_str]; eexists _, _, n; (split; [reflexivity|]);
      (split; [exact Hl|]); (split; [exact Hq|]); reflexivity.
Qed.

Lemma process_nonstr (tool : tool_fn) (p : processor) (start : Z) (ip : string) (f m : pyval)
    (w : world) :
  (forall s, m <> PStr s) ->
  exists w' e n, process tool p start ip f m w = (w', inl e) /\
    w_log w' = w_log w ++ n /\ Forall quiet n /\
    (forall w2, makedirs (output_dir_path p (w_clock w)) w = (w2, inr tt) ->
       e = TypeError ("sequence item 6: expected str instance, " ++ type_name m ++ " found")).
Proof.
  intros Hm. destruct (remove_vocals_nonstr tool p ip m w Hm) as (w' & e & n & H & Hl & Hq & He).
  exists w', e, n. unfold process. rewrite (bind_err _ _ _ _ _ H). auto.
Qed.

Lemma extract_err_audio (job : pyval) (w : world) (e : exc) :
  snd (extract_input job w) = inl e -> field (job_input_of job) "audio_data" PNone = PNone.
Proof.
  unfold extract_input, py_get, job_input_of, field, bind, ret, raise.
  destruct job as [| | | | | | d]; simpl; try reflexivity.
  destruct (assoc "input" d) as [ji|]; simpl.
  - destruct ji as [| | | | | | d0]; simpl; try reflexivity.
    destruct (truthy _); simpl; discriminate.
  - discriminate.
Qed.

Lemma decode_none (p : processor) (f : pyval) (w : world) :
  exists e, decode_audio_file p PNone f w = (w, inl e).
Proof. unfold decode_audio_file. cbn [bind datetime_now lift]. eexists. reflexivity. Qed.

Lemma extract_audio (job : pyval) (w : world) (a f m : pyval) :
  snd (extract_input job w) = inr (Some (a, f, m)) ->
  a = field (job_input_of job) "audio_data" PNone.
Proof.
  unfold extract_input, py_get, job_input_of, field, bind, ret, raise.
  destruct job as [| | | | | | d]; simpl; try discriminate.
  destruct (assoc "input" d) as [ji|]; simpl.
  - destruct ji as [| | | | | | d0]; simpl; try discriminate.
    destruct (truthy _); simpl; [intros H; injection H as <- _ _; reflexivity | discriminate].
  - discriminate.
Qed.

End MethodFacts.
Module Extras.
Import Py FS Handler Spec Scenario ResultFacts FileFacts StageFacts StrFacts CodecFacts
  FsFacts DirFacts InitFacts MethodFacts.

(** [os.path.splitext] (lines 134 and 222) splits a path into a root and
    an extension that concatenate back to the path; the extension is
    empty or starts with a dot. *)
Theorem splitext_concat (p : string) :
  (fst (Path.splitext p) ++ snd (Path.splitext p))%string = p /\
  (snd (Path.splitext p) = "" \/ exists r, snd (Path.splitext p) = String "." r).
Proof.
  unfold Path.splitext.
  destruct (Str.rfind "." p) as [d|] eqn:E; [|simpl; rewrite append_empty; auto].
  destruct (_ && _); simpl; [|rewrite append_empty; auto].
  split; [apply slice_concat|]. right. apply slice_from_get, rfind_get, E.
Qed.

(** [base64.b64encode] (line 87) turns [n] bytes into exactly
    [4 * ceil(n / 3)] characters. *)
Theorem b64encode_length (bs : list byte) :
  String.length (B64.b64encode bs) = (4 * ((List.length bs + 2) / 3))%nat.
Proof. unfold B64.b64encode. rewrite length_string_of_list_ascii. apply b2a_length. Qed.

(** [base64.b64decode] without [validate] (line 71) ignores an ASCII
    character outside the Base64 alphabet (a line break, a space, ...)
    anywhere in the payload: removing it changes neither the decoded
    bytes nor the error. *)
Theorem b64decode_skips_non_alphabet (s1 s2 : string) (c : ascii) :
  (nat_of_ascii c < 128)%nat -> c <> "="%char -> B64.table_a2b c = None ->
  b64decode (PStr (s1 ++ String c s2)) = b64decode (PStr (s1 ++ s2)).
Proof.
  intros Ha Hp Ht. unfold b64decode.
  rewrite !list_ascii_of_string_append. simpl list_ascii_of_string.
  rewrite !forallb_app. simpl forallb.
  assert (Hc : (nat_of_ascii c <? 128)%nat = true) by (apply Nat.ltb_lt; exact Ha).
  rewrite Hc. simpl andb.
  unfold B64.a2b_base64. rewrite a2b_loop_skip; [reflexivity | | exact Ht].
  apply Ascii.eqb_neq. exact Hp.
Qed.

Lemma b64decode_skips_non_alphabet_witness :
  b64decode (PStr ("QUJD" ++ String "010" "REVG")) = inr [Byte.x41; Byte.x42; Byte.x43; Byte.x44; Byte.x45; Byte.x46].
Proof.
  rewrite (b64decode_skips_non_alphabet "QUJD" "REVG" "010"); [| apply Nat.ltb_lt; reflexivity | discriminate | reflexivity].
  vm_compute. reflexivity.
Defined.


(** [os.makedirs(name, exist_ok=True)] (lines 29 and 105): when it
    returns, [name] is a directory, whether it was created or existed
    already (for a name whose last component is neither empty nor "."). *)
Theorem makedirs_creates_dir (name : string) (w w' : world) :
  snd (Path.split name) <> "" -> snd (Path.split name) <> "." ->
  makedirs name w = (w', inr tt) -> isdir (w_fs w') name = true.
Proof. apply makedirs_isdir. Qed.

Lemma makedirs_creates_dir_witness :
  isdir (w_fs (fst (makedirs (output_dir_path gpu (w_clock w0)) w0)))
        (output_dir_path gpu (w_clock w0)) = true.
Proof.
  apply (makedirs_creates_dir _ w0); [vm_compute; discriminate | vm_compute; discriminate |].
  vm_compute. reflexivity.
Defined.

(** [ServerlessVocalRemover.__init__] (lines 27-32): when [/tmp] is a
    directory and no file sits at [/tmp/vocal_removal], constructing the
    processor succeeds, the scratch root is then a directory, and the
    device is ["cuda"] or ["cpu"] as CUDA is available. *)
Theorem init_processor_creates_root (cuda : bool) (w : world) :
  lookup (w_fs w) "/tmp" = Some EDir ->
  (forall d, lookup (w_fs w) "/tmp/vocal_removal" <> Some (EFile d)) ->
  snd (init_processor cuda w) = inr (Processor "/tmp/vocal_removal" (if cuda then "cuda" else "cpu")) /\
  isdir (w_fs (fst (init_processor cuda w))) "/tmp/vocal_removal" = true.
Proof.
  intros Ht Hf. destruct (makedirs_root_ok w Ht Hf) as [w' Hm].
  unfold init_processor. simpl temp_dir.
  rewrite (bind_step _ _ _ _ _ Hm). simpl. split; [reflexivity|].
  apply (makedirs_isdir _ w); [vm_compute; discriminate | vm_compute; discriminate | exact Hm].
Qed.

Lemma init_processor_creates_root_witness :
  snd (init_processor true (World [("/tmp", EDir)] 0 [])) =
    inr (Processor "/tmp/vocal_removal" "cuda") /\
  isdir (w_fs (fst (init_processor true (World [("/tmp", EDir)] 0 [])))) "/tmp/vocal_removal"
    = true.
Proof.
  apply (init_processor_creates_root true (World [("/tmp", EDir)] 0 [])).
  - reflexivity.
  - intros d. vm_compute. discriminate.
Defined.

(** [cleanup_files] (lines 155-166) never raises; afterwards
    none of the given paths exists; it only deletes entries; and it
    keeps every entry that is neither one of the paths nor below one of
    them. *)
Theorem cleanup_files_effect (l : list string) (w : world) :
  snd (cleanup_files l w) = inr tt /\
  (forall f, In f l -> lexists (w_fs (fst (cleanup_files l w))) f = false) /\
  (forall kv, In kv (w_fs (fst (cleanup_files l w))) -> In kv (w_fs w)) /\
  (forall kv, In kv (w_fs w) ->
     (forall f, In f l -> fst kv <> Path.norm f /\
                          Str.starts_with (Path.norm f ++ "/") (fst kv) = false) ->
     In kv (w_fs (fst (cleanup_files l w)))).
Proof.
  destruct (cleanup_files_fs l w) as (H1 & H2 & H3 & H4).
  refine (conj H1 (conj _ (conj H3 H4))).
  intros f Hf. unfold lexists. rewrite (H2 f Hf). reflexivity.
Qed.

(** [handler] (lines 204-242): once [decode_audio_file] has written the
    input file, that file is gone when [handler] returns, on success
    ([cleanup_files]) and on failure ([os.remove] in the [except]
    branch) alike. *)
Theorem handler_removes_input_file (tool : tool_fn) (p : processor) (job : pyval) (w : world)
    (a f m : pyval) (path : string) :
  snd (extract_input job w) = inr (Some (a, f, m)) ->
  snd (decode_audio_file p a f w) = inr path ->
  isfile (w_fs (fst (handler tool p job w))) path = false.
Proof.
  intros Hx Hd.
  assert (Hp := decode_path _ _ _ _ _ Hd).
  destruct (extract_input_spec job w) as [Hw _].
  unfold handler. cbn [bind datetime_now].
  rewrite (bind_step _ _ _ _ _ (try_step _ w)). rewrite Hw, Hx. cbv beta iota.
  rewrite (bind_step _ _ _ _ _ (try_step _ w)). rewrite Hd. cbv beta iota.
  rewrite (bind_step _ _ _ _ _ (try_step _ _)).
  destruct (process tool p (w_clock w) path f m (fst (decode_audio_file p a f w)))
    as [w3 [e | resp]] eqn:E3; cbn [fst snd]; cbv beta iota.
  - apply failure_response_removes. rewrite Hp. apply input_file_path_nonempty.
  - unfold ret. simpl. unfold isfile. rewrite (process_removes_input _ _ _ _ _ _ _ _ _ E3).
    reflexivity.
Qed.

Lemma handler_removes_input_file_witness :
  isfile (w_fs (fst (handler stub_fail cpu job1 w0)))
         (input_file_path cpu (w_clock w0) (PStr "test.wav")) = false.
Proof.
  apply (handler_removes_input_file stub_fail cpu job1 w0 (PStr "QUJD") (PStr "test.wav")
           (PStr "htdemucs_ft")); vm_compute; reflexivity.
Defined.

(** The names built from [datetime.now().strftime('%Y%m%d_%H%M%S')]
    (lines 68 and 104) have a resolution of one second: two instants in
    the same second give the same input file path (for the same
    filename) and the same output directory, so a second job started in
    that second writes over the first one's files. *)
Theorem same_second_same_paths (p : processor) (t1 t2 : Z) (f : pyval) :
  t1 / 1000000 = t2 / 1000000 ->
  input_file_path p t1 f = input_file_path p t2 f /\ output_dir_path p t1 = output_dir_path p t2.
Proof.
  intros H. unfold input_file_path, output_dir_path.
  rewrite (strftime_same_second _ _ H). split; reflexivity.
Qed.

Lemma same_second_same_paths_witness :
  input_file_path cpu 1792000000000000 (PStr "a.wav") =
    input_file_path cpu 1792000000999999 (PStr "a.wav") /\
  output_dir_path cpu 1792000000000000 = output_dir_path cpu 1792000000999999.
Proof. apply same_second_same_paths. reflexivity. Defined.

(** The [processed_audio] of a success (lines 207-218) is the Base64
    encoding of the bytes of the artifact that [remove_vocals_serverless]
    found: decoding it gives back that file's contents. *)
Theorem processed_audio_is_artifact (tool : tool_fn) (p : processor) (start : Z)
    (ip : string) (f m : pyval) (w w' : world) (resp : response) :
  process tool p start ip f m w = (w', inr resp) ->
  exists op w1 bs s,
    remove_vocals_serverless tool p ip m w = (w1, inr op) /\
    lookup (w_fs w1) op = Some (EFile bs) /\
    assoc "processed_audio" resp = Some (PStr s) /\
    b64decode (PStr s) = inr bs.
Proof.
  unfold process. intros H.
  destruct (bind_inr _ _ _ _ _ H) as (w1 & op & Hrv & H1).
  destruct (bind_inr _ _ _ _ _ H1) as (w2 & rd & Henc & H2).
  destruct (bind_inr _ _ _ _ _ H2) as (w3 & t & _ & H3).
  destruct (bind_inr _ _ _ _ _ H3) as (w4 & root & _ & H4).
  destruct (bind_inr _ _ _ _ _ H4) as (w5 & ts & _ & H5).
  destruct (bind_inr _ _ _ _ _ H5) as (w6 & u & _ & H6).
  unfold ret in H6. injection H6 as _ <-.
  destruct (encode_ok _ _ _ _ Henc) as (bs & Hl & ->).
  exists op, w1, bs, (B64.b64encode bs).
  refine (conj Hrv (conj Hl (conj eq_refl _))). apply b64decode_encode.
Qed.

Lemma processed_audio_is_artifact_witness :
  exists op w1 bs s,
    remove_vocals_serverless stub_ok gpu (input_file_path gpu (w_clock w0) (PStr "test.wav"))
      (PStr "htdemucs_ft") (fst (decode_audio_file gpu (PStr "QUJD") (PStr "test.wav") w0))
      = (w1, inr op) /\
    lookup (w_fs w1) op = Some (EFile bs) /\
    assoc "processed_audio"
      (match snd (process stub_ok gpu (w_clock w0)
                      (input_file_path gpu (w_clock w0) (PStr "test.wav"))
                      (PStr "test.wav") (PStr "htdemucs_ft")
                      (fst (decode_audio_file gpu (PStr "QUJD") (PStr "test.wav") w0))) with
       | inr r => r | inl _ => [] end) = Some (PStr s) /\
    b64decode (PStr s) = inr bs.
Proof.
  apply (processed_audio_is_artifact stub_ok gpu (w_clock w0)
           (input_file_path gpu (w_clock w0) (PStr "test.wav")) (PStr "test.wav")
           (PStr "htdemucs_ft") (fst (decode_audio_file gpu (PStr "QUJD") (PStr "test.wav") w0))
           (fst (process stub_ok gpu (w_clock w0)
                   (input_file_path gpu (w_clock w0) (PStr "test.wav"))
                   (PStr "test.wav") (PStr "htdemucs_ft")
                   (fst (decode_audio_file gpu (PStr "QUJD") (PStr "test.wav") w0))))).
  vm_compute. reflexivity.
Defined.

(** A [method] that is not a string (lines 197 and 96-124) never reaches
    Demucs: for a job that does not take the early return, [handler]
    runs no tool and returns an error response. When the decode and the
    [os.makedirs] of the output directory succeed, that error is the
    [TypeError] that [' '.join(command)] raises on line 121, before
    [subprocess.run]. *)
Theorem non_string_method_runs_no_tool (tool : tool_fn) (p : processor) (job : pyval)
    (w : world) :
  missing_audio job = false ->
  (forall s, field (job_input_of job) "method" (PStr "htdemucs_ft") <> PStr s) ->
  exists new, w_log (fst (handler tool p job w)) = app (w_log w) new /\
    Forall (fun e => Spec.is_run e = false) new /\
    exists msg, failure_with (snd (handler tool p job w)) msg /\
      (forall ip w1 w2,
         decode_audio_file p (field (job_input_of job) "audio_data" PNone) (job_filename job) w
           = (w1, inr ip) ->
         makedirs (output_dir_path p (w_clock w1)) w1 = (w2, inr tt) ->
         msg = ("sequence item 6: expected str instance, "
                ++ type_name (field (job_input_of job) "method" (PStr "htdemucs_ft"))
                ++ " found")%string).
Proof.
  intros Hmiss Hmeth.
  destruct (extract_input_spec job w) as [Hw Hr].
  unfold handler. cbn [bind datetime_now].
  rewrite (bind_step _ _ _ _ _ (try_step _ w)). rewrite Hw.
  destruct (snd (extract_input job w)) as [e | [[[a f] m] |]] eqn:Ex; cbv beta iota.
  - destruct (RunFacts.failure_response_spec (w_clock w) None e w) as [n [Hl [Hq Hf]]].
    exists n. split; [exact Hl|]. split; [apply RunFacts.quiet_no_run, Hq|].
    exists (exc_str e). split; [exact Hf|].
    intros ip w1 w2 H. rewrite (extract_err_audio _ _ _ Ex) in H.
    destruct (decode_none p (job_filename job) w) as [e' He']. rewrite He' in H. discriminate.
  - assert (Hm := extract_method _ _ _ _ _ Ex). subst m.
    assert (Ha := extract_audio _ _ _ _ _ Ex). subst a.
    destruct Hr as [_ Hfn]. subst f.
    rewrite (bind_step _ _ _ _ _ (try_step _ w)). cbv beta iota.
    destruct (Hoare.decode_quiet p (field (job_input_of job) "audio_data" PNone)
                (job_filename job) w) as [n1 [Hl1 Hq1]].
    destruct (decode_audio_file p (field (job_input_of job) "audio_data" PNone)
                (job_filename job) w) as [w1 [e | ip]] eqn:Ed; cbn [fst snd] in *.
    + destruct (RunFacts.failure_response_spec (w_clock w) None e w1) as [n2 [Hl2 [Hq2 Hf]]].
      exists (app n1 n2). rewrite Hl2, Hl1, app_assoc. split; [reflexivity|].
      split; [apply RunFacts.quiet_no_run, Forall_app; auto|].
      exists (exc_str e). split; [exact Hf|]. intros ip w1' w2 H. discriminate.
    + rewrite (bind_step _ _ _ _ _ (try_step _ _)).
      destruct (process_nonstr tool p (w_clock w) ip (job_filename job) _ w1 Hmeth)
        as (w2 & e & n2 & Hp & Hl2 & Hq2 & He).
      rewrite Hp. cbn [fst snd]. cbv beta iota.
      destruct (RunFacts.failure_response_spec (w_clock w) (Some ip) e w2)
        as [n3 [Hl3 [Hq3 Hf]]].
      exists (app n1 (app n2 n3)). rewrite Hl3, Hl2, Hl1, !app_assoc. split; [reflexivity|].
      split; [apply RunFacts.quiet_no_run; repeat (apply Forall_app; split); auto|].
      exists (exc_str e). split; [exact Hf|].
      intros ip' w1' w3 H Hmk. injection H as <- _.
      rewrite (He w3 Hmk). reflexivity.
  - rewrite Hmiss in Hr. discriminate.
Qed.

Lemma non_string_method_runs_no_tool_witness :
  exists new,
    w_log (fst (handler stub_ok gpu
      (PDict [("input", PDict [("audio_data", PStr "QUJD"); ("method", PInt 3)])]) w0))
      = app (w_log w0) new /\
    Forall (fun e => Spec.is_run e = false) new /\
    exists msg, failure_with (snd (handler stub_ok gpu
      (PDict [("input", PDict [("audio_data", PStr "QUJD"); ("method", PInt 3)])]) w0)) msg /\
      (forall ip w1 w2,
         decode_audio_file gpu (PStr "QUJD") (PStr "audio.mp3") w0 = (w1, inr ip) ->
         makedirs (output_dir_path gpu (w_clock w1)) w1 = (w2, inr tt) ->
         msg = ("sequence item 6: expected str instance, " ++ "int" ++ " found")%string).
Proof.
  apply (non_string_method_runs_no_tool stub_ok gpu
           (PDict [("input", PDict [("audio_data", PStr "QUJD"); ("method", PInt 3)])]) w0).
  - reflexivity.
  - intros s. vm_compute. discriminate.
Defined.

(** [decode_audio_file] then [encode_audio_file] (lines 58-94): the file
    the first one writes is read back by the second as the Base64
    encoding of the decoded bytes. *)
Theorem decode_then_encode (p : processor) (a f : pyval) (w w' : world) (path : string) :
  decode_audio_file p a f w = (w', inr path) ->
  exists bs, b64decode a = inr bs /\ snd (encode_audio_file path w') = inr (B64.b64encode bs).
Proof.
  intros H. assert (Hs := decode_spec p a f w). rewrite H in Hs.
  destruct Hs as (bs & Hb & _ & Hfs). exists bs. split; [exact Hb|].
  apply encode_file. rewrite Hfs. apply lookup_put.
Qed.

Lemma decode_then_encode_witness :
  exists bs, b64decode (PStr "QUJD") = inr bs /\
    snd (encode_audio_file (input_file_path gpu (w_clock w0) (PStr "test.wav"))
           (fst (decode_audio_file gpu (PStr "QUJD") (PStr "test.wav") w0)))
    = inr (B64.b64encode bs).
Proof.
  apply (decode_then_encode gpu (PStr "QUJD") (PStr "test.wav") w0). vm_compute. reflexivity.
Defined.

(** [decode_audio_file] (lines 64-80) decodes before it opens the file:
    a payload that [base64.b64decode] rejects is re-raised with the
    file system, the clock and the event trace unchanged, so no file is
    written (the [logger.error] of line 79 is not part of the model). *)
Theorem decode_error_writes_nothing (p : processor) (a f : pyval) (w : world) (e : exc) :
  b64decode a = inl e -> decode_audio_file p a f w = (w, inl e).
Proof.
  intros H. unfold decode_audio_file. cbn [bind datetime_now lift]. rewrite H. reflexivity.
Qed.

Lemma decode_error_writes_nothing_witness :
  decode_audio_file gpu (PStr "QUJ") (PStr "a.wav") w0 =
    (w0, inl (BinasciiError B64.IncorrectPadding)).
Proof. apply decode_error_writes_nothing. vm_compute. reflexivity. Defined.

End Extras.
